(** * secure-mcp-auditor: the fact-check auditor and the directory scanner

    A shallow embedding of [src/fact_check_auditor.py] and
    [src/file_scanner.py], and the properties of their specification.

    Modelling conventions.
    - A Python [str] is a [string]: the sequence of the bytes of its UTF-8
      encoding.  [lower], [upper], the whitespace class and the width of a
      format field are the ASCII ones, which is what Python computes on
      ASCII text; case mapping of characters outside ASCII is not modelled.
    - [None] is [option]'s [None]; a [dict] iterated in insertion order is an
      association list.
    - The file system, the console and the clock are explicit: a [World]
      holds the files (a finite map from path to content), the faults that
      [open] raises, and the lines printed so far; the timestamp of a run is
      an argument.
    - Methods that print or touch files are computations in a small state
      monad over the auditor object and the world. *)

From Stdlib Require Import NArith Ascii String List Lia Bool Sorted.
From Stdlib Require Import DecimalString.
From stdpp Require Import gmap strings.

Import ListNotations.

(** ** Python strings *)

Module PyStr.

Definition code (c : ascii) : N := N_of_ascii c.

Definition is_upper (c : ascii) : bool := ((65 <=? code c) && (code c <=? 90))%N.
Definition is_lower (c : ascii) : bool := ((97 <=? code c) && (code c <=? 122))%N.

Definition lower_char (c : ascii) : ascii :=
  if is_upper c then ascii_of_N (code c + 32) else c.
Definition upper_char (c : ascii) : ascii :=
  if is_lower c then ascii_of_N (code c - 32) else c.

Fixpoint map_chars (f : ascii -> ascii) (s : string) : string :=
  match s with
  | EmptyString => EmptyString
  | String c s' => String (f c) (map_chars f s')
  end.

(** [str.lower()] and [str.upper()]. *)
Definition lower : string -> string := map_chars lower_char.
Definition upper : string -> string := map_chars upper_char.

(** The characters [str.isspace()], [str.strip()] and the regular
    expression class [\s] treat as whitespace, within ASCII:
    TAB, LF, VT, FF, CR, FS, GS, RS, US and the space. *)
Definition is_space (c : ascii) : bool :=
  (((9 <=? code c) && (code c <=? 13)) || ((28 <=? code c) && (code c <=? 32)))%N.

Definition is_empty (s : string) : bool :=
  match s with EmptyString => true | String _ _ => false end.

Fixpoint lstrip (s : string) : string :=
  match s with
  | EmptyString => EmptyString
  | String c s' => if is_space c then lstrip s' else s
  end.

Fixpoint rstrip (s : string) : string :=
  match s with
  | EmptyString => EmptyString
  | String c s' =>
      let r := rstrip s' in
      if is_space c && is_empty r then EmptyString else String c r
  end.

(** [str.strip()]. *)
Definition strip (s : string) : string := rstrip (lstrip s).

(** [c * n] for a one-character string [c]. *)
Fixpoint repeat_char (c : ascii) (n : nat) : string :=
  match n with
  | O => EmptyString
  | S n' => String c (repeat_char c n')
  end.

(** The format specifications [{s:<w}] and [{s:>w}]: pad with spaces up
    to the width, never truncate. *)
Definition ljust (w : nat) (s : string) : string :=
  s +:+ repeat_char " " (w - String.length s).
Definition rjust (w : nat) (s : string) : string :=
  repeat_char " " (w - String.length s) +:+ s.

(** [str(n)] for a natural number. *)
Definition of_nat (n : nat) : string := NilZero.string_of_uint (Nat.to_uint n).

(** ['\n'.join(lines)]. *)
Fixpoint join_lines (lines : list string) : string :=
  match lines with
  | [] => EmptyString
  | [l] => l
  | l :: rest => l +:+ String "010" (join_lines rest)
  end.

End PyStr.

(** ** The regular expressions of [extract_value] *)

Module Regex.

(** The literal [lit] at the head of [s]: the rest of [s] after it. *)
Fixpoint strip_prefix (lit s : string) : option string :=
  match lit, s with
  | EmptyString, _ => Some s
  | String a lit', String b s' =>
      if Ascii.eqb a b then strip_prefix lit' s' else None
  | String _ _, EmptyString => None
  end.

Definition not_dot (c : ascii) : bool := negb (Ascii.eqb c ".").

Fixpoint take_while (p : ascii -> bool) (s : string) : string :=
  match s with
  | EmptyString => EmptyString
  | String c s' => if p c then String c (take_while p s') else EmptyString
  end.

(** The group [([^.]+)] at the head of [s], with nothing after it in the
    pattern: the longest run of characters other than the period, which
    must not be empty.  A negated class also matches a newline. *)
Definition capture (s : string) : option string :=
  let g := take_while not_dot s in
  if PyStr.is_empty g then None else Some g.

(** [\s*([^.]+)] at the head of [s].  The star is greedy: it takes a
    whitespace character when it can and gives it back only when the rest
    of the pattern fails after it. *)
Fixpoint spaces_then_capture (s : string) : option string :=
  match s with
  | EmptyString => capture s
  | String c s' =>
      if PyStr.is_space c then
        match spaces_then_capture s' with
        | Some g => Some g
        | None => capture s
        end
      else capture s
  end.

(** [re.search]: the match at the leftmost position where one exists. *)
Fixpoint search (match_here : string -> option string) (s : string)
  : option string :=
  match match_here s with
  | Some g => Some g
  | None =>
      match s with
      | EmptyString => None
      | String _ s' => search match_here s'
      end
  end.

(** [lit([^.]+)] and [lit\s*([^.]+)] at the head of [s]; the result is
    group 1. *)
Definition lit_capture (lit s : string) : option string :=
  match strip_prefix lit s with
  | Some rest => capture rest
  | None => None
  end.

Definition lit_spaces_capture (lit s : string) : option string :=
  match strip_prefix lit s with
  | Some rest => spaces_then_capture rest
  | None => None
  end.

End Regex.

(** ** [fact_check_auditor.py] *)

Module FactCheckAuditor.

Import PyStr.

(** *** Data *)

Inductive Status : Type :=
| MATCH
| MISMATCH
| CRITICAL_WARNING
| DATA_MISSING.

Definition status_text (s : Status) : string :=
  match s with
  | MATCH => "MATCH"
  | MISMATCH => "MISMATCH"
  | CRITICAL_WARNING => "CRITICAL WARNING"
  | DATA_MISSING => "DATA MISSING"
  end.

Definition status_eqb (s t : Status) : bool :=
  match s, t with
  | MATCH, MATCH
  | MISMATCH, MISMATCH
  | CRITICAL_WARNING, CRITICAL_WARNING
  | DATA_MISSING, DATA_MISSING => true
  | _, _ => false
  end.

(** One element of the list [audit] returns. *)
Record AuditResult : Type := mkResult {
  category : string;
  expected : string;
  actual : option string;
  status : Status
}.

(** The attributes of a [FactCheckAuditor] object. *)
Record Auditor : Type := mkAuditor {
  expected_values : list (string * string);
  source_file : string;
  report_file : string;
  history_log : string;
  content : option string
}.

(** What the script sees of its environment.  [read_error] and
    [write_error] give, for a path, the message of the exception that
    opening it for reading, or for writing or appending, raises. *)
Record World : Type := mkWorld {
  files : gmap string string;
  read_error : gmap string string;
  write_error : gmap string string;
  stdout : list string
}.

Record State : Type := mkState {
  self : Auditor;
  world : World
}.

(** [__init__]. *)
Definition init : Auditor :=
  {| expected_values :=
       [ ("Deadline", "January 15th");
         ("Lead", "Sarah Chen");
         ("Budget", "$50,000");
         ("Risk Level", "Low") ];
     source_file := "project_specs.txt";
     report_file := "audit_report.txt";
     history_log := "audit_history.log";
     content := None |}.

(** [Path(__file__).name]. *)
Definition script_name : string := "fact_check_auditor.py".

(** *** The monad of the methods

    A computation takes the state and gives the new state with either a
    value or [None], an exception that nothing caught. *)

Definition M (A : Type) : Type := State -> option A * State.

Definition ret {A} (a : A) : M A := fun st => (Some a, st).

Definition bind {A B} (c : M A) (k : A -> M B) : M B :=
  fun st =>
    match c st with
    | (Some a, st') => k a st'
    | (None, st') => (None, st')
    end.

Definition raise {A} : M A := fun st => (None, st).

Notation "x <- c ;; k" := (bind c (fun x => k))
  (at level 100, c at next level, right associativity).
Notation "c ;;; k" := (bind c (fun _ => k))
  (at level 100, right associativity).

Definition get_self : M Auditor := fun st => (Some (self st), st).
Definition get_world : M World := fun st => (Some (world st), st).

(** The three ways a method changes the state: [self.content = c], a file
    written, lines printed. *)
Definition with_content (c : string) (st : State) : State :=
  let a := self st in
  {| self := {| expected_values := expected_values a;
                source_file := source_file a;
                report_file := report_file a;
                history_log := history_log a;
                content := Some c |};
     world := world st |}.

Definition with_files (fs : gmap string string) (st : State) : State :=
  let w := world st in
  {| self := self st;
     world := {| files := fs;
                 read_error := read_error w;
                 write_error := write_error w;
                 stdout := stdout w |} |}.

Definition with_output (lines : list string) (st : State) : State :=
  let w := world st in
  {| self := self st;
     world := {| files := files w;
                 read_error := read_error w;
                 write_error := write_error w;
                 stdout := stdout w ++ lines |} |}.

Definition set_content (c : string) : M unit :=
  fun st => (Some tt, with_content c st).

Definition put_files (fs : gmap string string) : M unit :=
  fun st => (Some tt, with_files fs st).

(** [print(line)]. *)
Definition print (line : string) : M unit :=
  fun st => (Some tt, with_output [line] st).

Definition newline : string := String "010" EmptyString.
Definition rule_eq : string := repeat_char "=" 60.
Definition rule_dash : string := repeat_char "-" 60.

(** *** [load_file] *)

Definition load_file : M bool :=
  a <- get_self ;;
  w <- get_world ;;
  match files w !! source_file a with
  | None =>
      print ("Error: File '" +:+ source_file a +:+ "' does not exist.") ;;;
      ret false
  | Some text =>
      match read_error w !! source_file a with
      | Some e =>
          print ("Error reading file: " +:+ e) ;;;
          ret false
      | None =>
          set_content text ;;;
          print ("✓ Loaded: " +:+ source_file a) ;;;
          print ("Content: " +:+ text +:+ newline) ;;;
          ret true
      end
  end.

(** *** [extract_value] *)

Definition extract_value (a : Auditor) (category : string) : option string :=
  match content a with
  | None => None
  | Some text =>
      if is_empty text then None
      else
        let content_lower := lower text in
        if String.eqb category "Deadline" then
          option_map strip
            (Regex.search (Regex.lit_capture "deadline is ") content_lower)
        else if String.eqb category "Lead" then
          option_map strip
            (Regex.search (Regex.lit_capture "lead engineer is ") content_lower)
        else if String.eqb category "Budget" then
          option_map strip
            (Regex.search (Regex.lit_capture "budget is ") content_lower)
        else if String.eqb category "Risk Level" then
          option_map strip
            (Regex.search (Regex.lit_spaces_capture "risk level:") content_lower)
        else None
  end.

(** *** [audit] *)

Definition elevated : list string := ["medium"; "high"].

Definition str_in (s : string) (l : list string) : bool :=
  existsb (String.eqb s) l.

(** The body of the loop of [audit] for one item of [expected_values]:
    the status and the line printed. *)
Definition audit_category (category expected : string) (actual : option string)
  : Status * string :=
  match actual with
  | None =>
      (DATA_MISSING, category +:+ ": " +:+ status_text DATA_MISSING)
  | Some act =>
      if String.eqb (lower act) (lower expected) then
        (MATCH,
         category +:+ ": " +:+ status_text MATCH +:+ " (" +:+ expected +:+ ")")
      else if String.eqb category "Risk Level" && str_in (lower act) elevated then
        (CRITICAL_WARNING,
         category +:+ ": " +:+ status_text CRITICAL_WARNING
           +:+ " (Expected: " +:+ expected +:+ ", Found: " +:+ upper act +:+ ")")
      else
        (MISMATCH,
         category +:+ ": " +:+ status_text MISMATCH
           +:+ " (Expected: " +:+ expected +:+ ", Found: " +:+ act +:+ ")")
  end.

Fixpoint audit_loop (items : list (string * string)) (results : list AuditResult)
  : M (list AuditResult) :=
  match items with
  | [] => ret results
  | (category, expected) :: rest =>
      a <- get_self ;;
      let actual := extract_value a category in
      let '(status, line) := audit_category category expected actual in
      print line ;;;
      audit_loop rest
        (results ++ [ {| category := category; expected := expected;
                         actual := actual; status := status |} ])
  end.

Definition audit : M (list AuditResult) :=
  print rule_eq ;;;
  print "AUDIT IN PROGRESS" ;;;
  print rule_eq ;;;
  a <- get_self ;;
  results <- audit_loop (expected_values a) [] ;;
  print rule_eq ;;;
  ret results.

(** *** [generate_report] *)

Definition has_status (t : Status) (r : AuditResult) : bool :=
  status_eqb (status r) t.

(** [[r for r in results if r['status'] == t]]. *)
Definition with_status (t : Status) (results : list AuditResult)
  : list AuditResult :=
  List.filter (has_status t) results.

(** [sum(1 for r in results if r['status'] == t)]. *)
Definition sum_ones (t : Status) (results : list AuditResult) : nat :=
  fold_left Nat.add
    (flat_map (fun r => if has_status t r then [1%nat] else []) results) 0%nat.

(** [r['actual'].upper()]; on [None] Python raises [AttributeError]. *)
Definition actual_upper (r : AuditResult) : option string :=
  option_map upper (actual r).

(** [f"{r['actual']}"]. *)
Definition actual_text (r : AuditResult) : string :=
  match actual r with
  | Some a => a
  | None => "None"
  end.

Fixpoint report_warning_lines (warnings : list AuditResult)
  : option (list string) :=
  match warnings with
  | [] => Some []
  | warning :: rest =>
      match actual_upper warning with
      | None => None
      | Some up =>
          option_map
            (fun more =>
               ("⚠️  " +:+ category warning +:+ ": " +:+ up)
               :: ("    Expected: " +:+ expected warning)
               :: more)
            (report_warning_lines rest)
      end
  end.

Definition report_result_lines (result : AuditResult) : list string :=
  [ newline +:+ "Category: " +:+ category result;
    "Expected Value: " +:+ expected result;
    match actual result with
    | Some a => "Actual Value: " +:+ a
    | None => "Actual Value: NOT FOUND"
    end;
    "Status: " +:+ status_text (status result);
    rule_dash ].

(** The last lines of the report, from the four counts. *)
Definition report_summary (matches mismatches critical missing : nat)
  : list string :=
  [ EmptyString;
    "SUMMARY:";
    "  MATCH: " +:+ of_nat matches;
    "  MISMATCH: " +:+ of_nat mismatches;
    "  CRITICAL WARNING: " +:+ of_nat critical;
    "  DATA MISSING: " +:+ of_nat missing;
    EmptyString;
    rule_eq ].

(** [report_lines] as [generate_report] builds it, or [None] when building
    it raises. *)
Definition report_lines (a : Auditor) (results : list AuditResult)
  : option (list string) :=
  let head :=
    [ rule_eq; "FACT-CHECK AUDIT REPORT"; rule_eq;
      "Source File: " +:+ source_file a;
      "Report Generated: " +:+ script_name;
      rule_eq; EmptyString ] in
  let critical_warnings := with_status CRITICAL_WARNING results in
  let warnings_block :=
    match critical_warnings with
    | [] => Some []
    | _ :: _ =>
        option_map
          (fun ls =>
             ["!!! CRITICAL WARNINGS DETECTED !!!"; rule_eq] ++ ls
               ++ [rule_eq; EmptyString])
          (report_warning_lines critical_warnings)
    end in
  match warnings_block with
  | None => None
  | Some block =>
      let matches := sum_ones MATCH results in
      let mismatches := sum_ones MISMATCH results in
      let missing := sum_ones DATA_MISSING results in
      let critical := sum_ones CRITICAL_WARNING results in
      Some (head ++ block
              ++ ["VALIDATION RESULTS:"; rule_dash]
              ++ flat_map report_result_lines results
              ++ report_summary matches mismatches critical missing)
  end.

Definition generate_report (results : list AuditResult) : M bool :=
  a <- get_self ;;
  match report_lines a results with
  | None => raise
  | Some lines =>
      let report_content := join_lines lines in
      w <- get_world ;;
      match write_error w !! report_file a with
      | Some e =>
          print (newline +:+ "Error generating report: " +:+ e) ;;;
          ret false
      | None =>
          put_files (<[report_file a := report_content]> (files w)) ;;;
          print (newline +:+ "✓ Report generated: " +:+ report_file a) ;;;
          ret true
      end
  end.

(** *** [log_to_history] *)

Fixpoint log_critical_items (warnings : list AuditResult)
  : option (list string) :=
  match warnings with
  | [] => Some []
  | c :: rest =>
      match actual_upper c with
      | None => None
      | Some up =>
          option_map
            (fun more =>
               ("  - " +:+ category c +:+ ": Expected '" +:+ expected c
                  +:+ "', Found '" +:+ up +:+ "'") :: more)
            (log_critical_items rest)
      end
  end.

Definition log_mismatch_item (m : AuditResult) : string :=
  "  - " +:+ category m +:+ ": Expected '" +:+ expected m
    +:+ "', Found '" +:+ actual_text m +:+ "'".

Definition log_missing_item (m : AuditResult) : string :=
  "  - " +:+ category m +:+ ": " +:+ expected m.

Definition none_line : string := "Mismatches Found: None".

(** [log_entry] as [log_to_history] builds it, or [None] when building it
    raises. *)
Definition log_entry (timestamp : string) (results : list AuditResult)
  : option (list string) :=
  let matches := sum_ones MATCH results in
  let mismatches := with_status MISMATCH results in
  let missing := with_status DATA_MISSING results in
  let critical_warnings := with_status CRITICAL_WARNING results in
  let critical_block :=
    match critical_warnings with
    | [] => Some []
    | _ :: _ =>
        option_map
          (fun items =>
             ("⚠️  CRITICAL WARNINGS: "
                +:+ of_nat (List.length critical_warnings)) :: items)
          (log_critical_items critical_warnings)
    end in
  match critical_block with
  | None => None
  | Some critical_lines =>
      let mismatch_block :=
        match mismatches with
        | _ :: _ =>
            ("Mismatches Found: " +:+ of_nat (List.length mismatches))
            :: map log_mismatch_item mismatches
        | [] =>
            match critical_warnings with
            | [] => [none_line]
            | _ :: _ => []
            end
        end in
      let missing_block :=
        match missing with
        | [] => []
        | _ :: _ =>
            ("Data Missing: " +:+ of_nat (List.length missing))
            :: map log_missing_item missing
        end in
      Some ([ rule_dash;
              "AUDIT RUN: " +:+ timestamp;
              "Total Matches: " +:+ of_nat matches ]
              ++ critical_lines ++ mismatch_block ++ missing_block
              ++ [rule_dash; EmptyString])
  end.

(** What is written first in a log file that did not exist. *)
Definition log_banner : string :=
  (rule_eq +:+ newline) +:+ ("AUDIT HISTORY LOG" +:+ newline)
    +:+ (rule_eq +:+ newline +:+ newline).

Definition log_to_history (timestamp : string) (results : list AuditResult)
  : M bool :=
  a <- get_self ;;
  match log_entry timestamp results with
  | None => raise
  | Some lines =>
      let log_content := join_lines lines in
      w <- get_world ;;
      match write_error w !! history_log a with
      | Some e =>
          print ("Error logging to history: " +:+ e) ;;;
          ret false
      | None =>
          match files w !! history_log a with
          | Some prior =>
              put_files (<[history_log a := prior +:+ log_content]> (files w))
          | None =>
              put_files
                (<[history_log a := log_banner +:+ log_content]> (files w))
          end ;;;
          print ("✓ History logged: " +:+ history_log a) ;;;
          ret true
      end
  end.

(** *** [run] *)

Definition run (timestamp : string) : M bool :=
  print (newline +:+ rule_eq) ;;;
  print "FACT-CHECK AUDITOR" ;;;
  print (rule_eq +:+ newline) ;;;
  loaded <- load_file ;;
  if negb loaded then ret false
  else
    results <- audit ;;
    generate_report results ;;;
    log_to_history timestamp results ;;;
    print (newline +:+ "Audit complete!") ;;;
    ret true.

(** [main]: a new auditor, one run, the result of [run] dropped. *)
Definition main (timestamp : string) (w : World) : option unit * World :=
  match run timestamp {| self := init; world := w |} with
  | (Some _, st) => (Some tt, world st)
  | (None, st) => (None, world st)
  end.

End FactCheckAuditor.

(** ** [file_scanner.py] *)

Module FileScanner.

Import PyStr.

(** *** [format_size]

    A size is a natural number of bytes.  Dividing by [1024.0] is exact
    in binary floating point, so after [k] divisions the float
    [size_bytes] is the rational [n / 1024^k], kept here as the pair of
    [n] and the denominator [d]; this is what Python computes for sizes
    below [2^53].  The format [.2f] rounds that value to the nearest
    hundredth, ties to the even one. *)

Definition round_half_even (n d : N) : N :=
  let q := (n / d)%N in
  let r := (n mod d)%N in
  match (2 * r ?= d)%N with
  | Lt => q
  | Gt => (q + 1)%N
  | Eq => if N.even q then q else (q + 1)%N
  end.

Definition of_N (n : N) : string := of_nat (N.to_nat n).

Definition two_digits (n : N) : string :=
  if (n <? 10)%N then "0" +:+ of_N n else of_N n.

(** [f"{x:.2f}"] for [x = n / d]. *)
Definition fixed2 (n d : N) : string :=
  let h := round_half_even (100 * n) d in
  of_N (h / 100) +:+ "." +:+ two_digits (h mod 100).

Fixpoint format_units (units : list string) (n d : N) : string :=
  match units with
  | [] => fixed2 n d +:+ " PB"
  | unit :: rest =>
      if (n <? 1024 * d)%N then fixed2 n d +:+ " " +:+ unit
      else format_units rest n (d * 1024)%N
  end.

Definition format_size (size_bytes : N) : string :=
  format_units ["B"; "KB"; "MB"; "GB"; "TB"] size_bytes 1%N.

(** *** [scan_directory] *)

(** An entry that [iterdir()] lists, with the answers of the two calls the
    scan makes on it, at two moments:
    - [is_file]: what [is_file()] returns where the list of files is built
      (line 37); [is_file()] examines the entry with [stat()] and returns
      [False] too when that fails as for a missing file;
    - [st_size]: the size the [stat()] of the loop gives (line 55), [None]
      when that call raises, which the loop catches.
    An [is_file()] that raises is no entry: see [Unlistable]. *)
Record Entry : Type := mkEntry {
  name : string;
  is_file : bool;
  st_size : option N
}.

(** What the path given to [scan_directory] denotes.  [Unlistable] is a
    directory for which building the list of files raises: [iterdir()], or
    the [is_file()] of an entry whose [stat()] fails with another error
    than a missing file, such as a refused permission, which [pathlib]
    raises again up to Python 3.12; both are called outside any [try], so
    the exception leaves [scan_directory], after the banner. *)
Inductive Directory : Type :=
| Missing
| NotDirectory
| Unlistable (absolute : string) (error : string)
| Dir (absolute : string) (entries : list Entry).

Definition sort_key (f : Entry) : string := lower (name f).

(** [files.sort(key=...)]: a stable sort on the keys, by insertion. *)
Fixpoint insert_sorted (f : Entry) (sorted : list Entry) : list Entry :=
  match sorted with
  | [] => [f]
  | g :: rest =>
      if String.ltb (sort_key f) (sort_key g) then f :: g :: rest
      else g :: insert_sorted f rest
  end.

Definition sort_files (files : list Entry) : list Entry :=
  fold_left (fun sorted f => insert_sorted f sorted) files [].

Definition row (left right : string) : string :=
  ljust 40 left +:+ " " +:+ rjust 15 right.

Definition rule60 : string := repeat_char "=" 60.
Definition row_rule : string :=
  repeat_char "-" 40 +:+ " " +:+ repeat_char "-" 15.
Definition nl : string := String "010" EmptyString.

(** The loop over the sorted files: the running total and the lines
    printed. *)
Fixpoint scan_files (files : list Entry) (total_size : N) (out : list string)
  : N * list string :=
  match files with
  | [] => (total_size, out)
  | file :: rest =>
      match st_size file with
      | Some size =>
          scan_files rest (total_size + size)%N
            (out ++ [row (name file) (format_size size)])
      | None =>
          scan_files rest total_size (out ++ [row (name file) "Error"])
      end
  end.

(** [scan_directory(directory_path)]: the lines it prints, and the
    exception that leaves it, [None] when it returns. *)
Definition scan_directory (directory_path : string) (directory : Directory)
  : list string * option string :=
  let banner absolute :=
    [ nl +:+ rule60; "Scanning: " +:+ absolute; rule60 +:+ nl ] in
  match directory with
  | Missing =>
      (["Error: Directory '" +:+ directory_path +:+ "' does not exist."], None)
  | NotDirectory =>
      (["Error: '" +:+ directory_path +:+ "' is not a directory."], None)
  | Unlistable absolute error =>
      (banner absolute, Some error)
  | Dir absolute entries =>
      let files := List.filter is_file entries in
      match files with
      | [] => (banner absolute ++ ["No files found in this directory."], None)
      | _ :: _ =>
          let files := sort_files files in
          let head := banner absolute ++ [row "File Name" "Size"; row_rule] in
          let '(total_size, out) := scan_files files 0%N head in
          (out ++ [ row_rule;
                    row "Total:" (format_size total_size);
                    nl +:+ "Total files: " +:+ of_nat (List.length files);
                    rule60 +:+ nl ],
           None)
      end
  end.

End FileScanner.

(** ** Descriptions used by the statements *)

Module AuditorSpec.

Import PyStr FactCheckAuditor.

(** The result [audit] appends for one item of [expected_values], and the
    line it prints for it. *)
Definition audit_result (a : Auditor) (item : string * string) : AuditResult :=
  let actual := extract_value a (fst item) in
  {| category := fst item;
     expected := snd item;
     actual := actual;
     status := fst (audit_category (fst item) (snd item) actual) |}.

Definition audit_line (a : Auditor) (item : string * string) : string :=
  snd (audit_category (fst item) (snd item) (extract_value a (fst item))).

Definition audit_results (a : Auditor) : list AuditResult :=
  map (audit_result a) (expected_values a).

Definition audit_console (a : Auditor) : list string :=
  [rule_eq; "AUDIT IN PROGRESS"; rule_eq]
    ++ map (audit_line a) (expected_values a) ++ [rule_eq].

(** The number of results that carry the status [t]. *)
Definition count_status (t : Status) (results : list AuditResult) : nat :=
  List.length (with_status t results).

(** Every result with a critical warning has an actual value: what
    [audit] guarantees and the writers rely on. *)
Definition well_formed (results : list AuditResult) : Prop :=
  Forall (fun r => status r = CRITICAL_WARNING -> actual r <> None) results.

(** The number of results whose status is [t], counted on the statuses
    alone, and the results that have it. *)
Definition Status_eq_dec (s t : Status) : {s = t} + {s <> t}.
Proof. decide equality. Defined.

Definition carrying (t : Status) (results : list AuditResult) : nat :=
  count_occ Status_eq_dec (map status results) t.

Definition having (t : Status) (results : list AuditResult)
  : list AuditResult :=
  List.filter (fun r => if Status_eq_dec (status r) t then true else false)
    results.

(** A number in decimal digits, the line feed, and the two rules of 60
    characters, as they stand in the files. *)
Definition decimal (n : nat) : string :=
  NilZero.string_of_uint (Nat.to_uint n).

Definition LF : string := String "010" EmptyString.

Definition equals_rule : string :=
  "============================================================".

Definition dashes_rule : string :=
  "------------------------------------------------------------".

(** The three lines [run] prints first. *)
Definition run_banner : list string :=
  [newline +:+ rule_eq; "FACT-CHECK AUDITOR"; rule_eq +:+ newline].

(** The example of the specification. *)
Definition example_content : string :=
  "The deadline is March 3rd. The lead engineer is Sarah Chen. The budget is $50,000. Risk Level: High.".

Definition example_world : World :=
  {| files := {[ "project_specs.txt" := example_content ]};
     read_error := ∅;
     write_error := ∅;
     stdout := [] |}.

Definition example_state : State :=
  with_content example_content {| self := init; world := example_world |}.

(** What a history log holds before the entry of a run is written: its
    prior content, or the banner of a new log. *)
Definition log_start (prior : option string) : string :=
  match prior with
  | Some bytes => bytes
  | None => log_banner
  end.

(** The auditor after [load_file] has read [text], and the state reached
    by [run] when [audit] returns. *)
Definition loaded (text : string) (a : Auditor) : Auditor :=
  {| expected_values := expected_values a;
     source_file := source_file a;
     report_file := report_file a;
     history_log := history_log a;
     content := Some text |}.

Definition audited (text : string) (st : State) : State :=
  with_output
    (run_banner
       ++ ["✓ Loaded: " +:+ source_file (self st);
           "Content: " +:+ text +:+ newline]
       ++ audit_console (loaded text (self st)))
    (with_content text st).

(** Worlds for the failure cases: no source file; a source file that
    cannot be read; a report file that cannot be written. *)
Definition empty_world : World :=
  {| files := ∅; read_error := ∅; write_error := ∅; stdout := [] |}.

Definition unreadable_world : World :=
  {| files := {[ "project_specs.txt" := example_content ]};
     read_error :=
       {[ "project_specs.txt" :=
            "[Errno 13] Permission denied: 'project_specs.txt'" ]};
     write_error := ∅;
     stdout := [] |}.

Definition read_only_report_world : World :=
  {| files := {[ "project_specs.txt" := example_content ]};
     read_error := ∅;
     write_error :=
       {[ "audit_report.txt" :=
            "[Errno 13] Permission denied: 'audit_report.txt'" ]};
     stdout := [] |}.

Definition read_only_log_world : World :=
  {| files := {[ "project_specs.txt" := example_content ]};
     read_error := ∅;
     write_error :=
       {[ "audit_history.log" :=
            "[Errno 13] Permission denied: 'audit_history.log'" ]};
     stdout := [] |}.

(** A run in which everything matches, and its history entry. *)
Definition quiet_results : list AuditResult :=
  [ {| category := "Lead"; expected := "Sarah Chen";
       actual := Some "sarah chen"; status := MATCH |} ].

Definition quiet_entry : list string :=
  [ rule_dash; "AUDIT RUN: 2026-01-01 00:00:00"; "Total Matches: 1";
    "Mismatches Found: None"; rule_dash; EmptyString ].

End AuditorSpec.

Module ScannerSpec.

Import PyStr FileScanner.

(** The line of a file in the table. *)
Definition file_row (f : Entry) : string :=
  match st_size f with
  | Some size => row (name f) (format_size size)
  | None => row (name f) "Error"
  end.

(** The sizes of the files whose size can be read, added up. *)
Fixpoint readable_total (files : list Entry) : N :=
  match files with
  | [] => 0%N
  | f :: rest =>
      match st_size f with
      | Some size => (size + readable_total rest)%N
      | None => readable_total rest
      end
  end.

(** [f] may come before [g] in the table: the key of [g] is not below the
    key of [f]. *)
Definition key_le (f g : Entry) : Prop :=
  String.ltb (sort_key g) (sort_key f) = false.

(** What [scan_directory] prints around the rows of the files. *)
Definition scan_head (absolute : string) : list string :=
  [ nl +:+ rule60; "Scanning: " +:+ absolute; rule60 +:+ nl;
    row "File Name" "Size"; row_rule ].

Definition scan_foot (total : string) (count : nat) : list string :=
  [ row_rule; row "Total:" total;
    nl +:+ "Total files: " +:+ of_nat count; rule60 +:+ nl ].

(** A file of the given name and size. *)
Definition file_of (n : string) (size : N) : Entry :=
  {| name := n; is_file := true; st_size := Some size |}.

(** The directory of the specification's example, and one with a file
    whose size cannot be read. *)
Definition two_files : Directory :=
  Dir "/data" [file_of "notes.txt" 2048; file_of "Hello.txt" 500].

Definition with_unreadable : list Entry :=
  [ file_of "b.txt" 2048;
    {| name := "locked.db"; is_file := true; st_size := None |};
    file_of "a.txt" 500 ].

(** A file that was there when the list was built and whose [stat()]
    fails in the loop, between two others. *)
Definition gone_meanwhile : Entry :=
  {| name := "b.tmp"; is_file := true; st_size := None |}.

Definition with_gone_meanwhile : list Entry :=
  [ file_of "c.txt" 2048; gone_meanwhile; file_of "a.txt" 500 ].

(** A directory that can be listed but not searched: the [stat()] of its
    entries is refused, and the [is_file()] of the first one raises. *)
Definition unsearchable : Directory :=
  Unlistable "/data" "[Errno 13] Permission denied: '/data/a.txt'".

(** A directory with a link to nothing: its [stat()] finds no file and
    [is_file()] answers [False]. *)
Definition with_dangling_link : Directory :=
  Dir "/data"
    [ {| name := "a.lnk"; is_file := false; st_size := None |};
      file_of "b.txt" 2048 ].

End ScannerSpec.

Module CoverageSpec.

Import PyStr FactCheckAuditor FileScanner.

(** Every character of [s] satisfies [p]. *)
Fixpoint all_chars (p : ascii -> bool) (s : string) : bool :=
  match s with
  | EmptyString => true
  | String c s' => p c && all_chars p s'
  end.

(** A character [str.lower()] leaves as it is. *)
Definition is_lowered (c : ascii) : bool := Ascii.eqb (lower_char c) c.

(** [s] is empty or begins with a period: where the group [([^.]+)] has
    to stop. *)
Definition stops_group (s : string) : Prop :=
  s = EmptyString \/ exists rest, s = String "." rest.

(** The phrase the pattern of a category begins with. *)
Definition lead_in (category : string) : option string :=
  if String.eqb category "Deadline" then Some "deadline is "
  else if String.eqb category "Lead" then Some "lead engineer is "
  else if String.eqb category "Budget" then Some "budget is "
  else if String.eqb category "Risk Level" then Some "risk level:"
  else None.

(** The pattern of a category, applied at the head of a string. *)
Definition pattern_at (category phrase : string) : string -> option string :=
  if String.eqb category "Risk Level" then Regex.lit_spaces_capture phrase
  else Regex.lit_capture phrase.

(** Whether [load_file] can read the source file. *)
Definition can_load (st : State) : bool :=
  match files (world st) !! source_file (self st),
        read_error (world st) !! source_file (self st) with
  | Some _, None => true
  | _, _ => false
  end.

(** The files once [generate_report] has tried to write the report, and
    once [log_to_history] has tried to write the entry. *)
Definition report_written (st : State) (lines : list string)
  : gmap string string :=
  match write_error (world st) !! report_file (self st) with
  | None => <[report_file (self st) := join_lines lines]> (files (world st))
  | Some _ => files (world st)
  end.

Definition log_written (st : State) (entry : list string)
  : gmap string string :=
  match write_error (world st) !! history_log (self st) with
  | None =>
      <[history_log (self st) :=
          AuditorSpec.log_start (files (world st) !! history_log (self st))
            +:+ join_lines entry]> (files (world st))
  | Some _ => files (world st)
  end.

(** A result the writers cannot print: a critical warning without an
    actual value. *)
Definition unprintable (r : AuditResult) : Prop :=
  status r = CRITICAL_WARNING /\ actual r = None.

Definition warnings_banner : string := "!!! CRITICAL WARNINGS DETECTED !!!".

(** The text of a number of hundredths, as [.2f] prints it. *)
Definition hundredths_text (h : N) : string :=
  of_N (h / 100) +:+ "." +:+ two_digits (h mod 100).

(** The files whose key is [k]. *)
Definition with_key (k : string) (files : list Entry) : list Entry :=
  List.filter (fun f => String.eqb (sort_key f) k) files.

End CoverageSpec.

(** * Properties of the strings and the patterns *)

Module StrFacts.

Import PyStr Regex CoverageSpec.

Lemma append_cons c s t : String c s +:+ t = String c (s +:+ t).
Proof. reflexivity. Qed.

Lemma append_assoc (s t u : string) : (s +:+ t) +:+ u = s +:+ (t +:+ u).
Proof.
  induction s as [|c s IH]; [reflexivity|].
  rewrite !append_cons. by rewrite IH.
Qed.

Lemma append_nil_r (s : string) : s +:+ EmptyString = s.
Proof.
  induction s as [|c s IH]; [reflexivity|]. rewrite append_cons. by rewrite IH.
Qed.

(** *** Case *)

Lemma lower_char_idem c : lower_char (lower_char c) = lower_char c.
Proof. destruct c as [[] [] [] [] [] [] [] []]; reflexivity. Qed.

Lemma lower_upper_char c : lower_char (upper_char c) = lower_char c.
Proof. destruct c as [[] [] [] [] [] [] [] []]; reflexivity. Qed.

Lemma lower_idem s : lower (lower s) = lower s.
Proof.
  induction s as [|c s IH]; [reflexivity|].
  cbn. rewrite lower_char_idem. f_equal. exact IH.
Qed.

Lemma lower_upper s : lower (upper s) = lower s.
Proof.
  induction s as [|c s IH]; [reflexivity|].
  cbn. rewrite lower_upper_char. f_equal. exact IH.
Qed.

Lemma is_empty_map f s : is_empty (map_chars f s) = is_empty s.
Proof. by destruct s. Qed.

Lemma lower_is_lowered s : all_chars is_lowered (lower s) = true.
Proof.
  induction s as [|c s IH]; [reflexivity|].
  cbn. rewrite andb_true_iff. split; [|exact IH].
  unfold is_lowered. rewrite lower_char_idem. apply Ascii.eqb_refl.
Qed.

Lemma lowered_fixed s : all_chars is_lowered s = true -> lower s = s.
Proof.
  induction s as [|c s IH]; [reflexivity|].
  cbn. rewrite andb_true_iff. intros [Hc Hs].
  apply Ascii.eqb_eq in Hc. rewrite Hc. f_equal. by apply IH.
Qed.

(** *** Parts of a string keep what holds of all its characters *)

Section Parts.

Variable p : ascii -> bool.

Lemma all_chars_app s t :
  all_chars p (s +:+ t) = all_chars p s && all_chars p t.
Proof.
  induction s as [|c s IH]; [reflexivity|].
  rewrite append_cons. cbn. rewrite IH. by rewrite andb_assoc.
Qed.

Lemma all_lstrip s : all_chars p s = true -> all_chars p (lstrip s) = true.
Proof.
  induction s as [|c s IH]; [done|].
  cbn [lstrip]. destruct (is_space c); [|done].
  cbn. rewrite andb_true_iff. intros [_ Hs]. by apply IH.
Qed.

Lemma all_rstrip s : all_chars p s = true -> all_chars p (rstrip s) = true.
Proof.
  induction s as [|c s IH]; [done|].
  cbn. rewrite andb_true_iff. intros [Hc Hs].
  destruct (is_space c && is_empty (rstrip s)); [done|].
  cbn. rewrite Hc. by apply IH.
Qed.

Lemma all_strip s : all_chars p s = true -> all_chars p (strip s) = true.
Proof. intros H. unfold strip. by apply all_rstrip, all_lstrip. Qed.

Lemma all_take_while q s :
  all_chars p s = true -> all_chars p (take_while q s) = true.
Proof.
  induction s as [|c s IH]; [done|].
  cbn. rewrite andb_true_iff. intros [Hc Hs].
  destruct (q c); [|done]. cbn. rewrite Hc. by apply IH.
Qed.

Lemma all_strip_prefix lit : forall s rest,
  all_chars p s = true -> strip_prefix lit s = Some rest ->
  all_chars p rest = true.
Proof.
  induction lit as [|a lit IH]; intros s rest Hs.
  - destruct s; cbn; by intros [= <-].
  - destruct s as [|b s]; cbn; [done|].
    destruct (Ascii.eqb a b); [|done].
    cbn in Hs. apply andb_true_iff in Hs as [_ Hs]. by apply IH.
Qed.

Lemma all_capture s g :
  all_chars p s = true -> capture s = Some g -> all_chars p g = true.
Proof.
  unfold capture. intros Hs.
  destruct (is_empty (take_while not_dot s)); [done|].
  intros [= <-]. by apply all_take_while.
Qed.

Lemma all_spaces_then_capture s : forall g,
  all_chars p s = true -> spaces_then_capture s = Some g ->
  all_chars p g = true.
Proof.
  induction s as [|c s IH]; intros g Hs; cbn [spaces_then_capture].
  - by apply all_capture.
  - destruct (is_space c); [|by apply all_capture].
    destruct (spaces_then_capture s) as [g'|] eqn:E.
    + intros [= <-]. apply IH; [|done].
      cbn in Hs. by apply andb_true_iff in Hs as [_ Hs].
    + by apply all_capture.
Qed.

Lemma all_search m s : forall g,
  (forall t h, all_chars p t = true -> m t = Some h -> all_chars p h = true) ->
  all_chars p s = true -> search m s = Some g -> all_chars p g = true.
Proof.
  intros g Hm. induction s as [|c s IH]; intros Hs; cbn [search].
  - destruct (m EmptyString) as [h|] eqn:E; [|done].
    intros [= <-]. by eapply Hm.
  - destruct (m (String c s)) as [h|] eqn:E.
    + intros [= <-]. by eapply Hm.
    + apply IH. cbn in Hs. by apply andb_true_iff in Hs as [_ Hs].
Qed.

End Parts.

(** *** What the group holds *)

Lemma take_while_all q s : all_chars q (take_while q s) = true.
Proof.
  induction s as [|c s IH]; [done|].
  cbn. destruct (q c) eqn:E; [|done]. cbn. by rewrite E.
Qed.

Lemma capture_no_dot s g : capture s = Some g -> all_chars not_dot g = true.
Proof.
  unfold capture. destruct (is_empty (take_while not_dot s)); [done|].
  intros [= <-]. apply take_while_all.
Qed.

Lemma spaces_then_capture_no_dot s : forall g,
  spaces_then_capture s = Some g -> all_chars not_dot g = true.
Proof.
  induction s as [|c s IH]; intros g; cbn [spaces_then_capture].
  - apply capture_no_dot.
  - destruct (is_space c); [|apply capture_no_dot].
    destruct (spaces_then_capture s) as [g'|]; [|apply capture_no_dot].
    intros [= <-]. by apply IH.
Qed.

Lemma search_found m s : forall g,
  search m s = Some g -> exists pre rest, s = pre +:+ rest /\ m rest = Some g.
Proof.
  induction s as [|c s IH]; intros g; cbn [search].
  - destruct (m EmptyString) eqn:E; [|done].
    intros [= <-]. by exists EmptyString, EmptyString.
  - destruct (m (String c s)) eqn:E.
    + intros [= <-]. by exists EmptyString, (String c s).
    + intros H. destruct (IH _ H) as (pre & rest & -> & Hm).
      by exists (String c pre), rest.
Qed.

(** *** [strip] *)

Lemma rstrip_idem s : rstrip (rstrip s) = rstrip s.
Proof.
  induction s as [|c s IH]; [done|].
  cbn [rstrip]. destruct (is_space c && is_empty (rstrip s)) eqn:E; [done|].
  cbn [rstrip]. by rewrite IH, E.
Qed.

Lemma lstrip_rstrip_lstrip s : lstrip (rstrip (lstrip s)) = rstrip (lstrip s).
Proof.
  induction s as [|c s IH]; [done|].
  cbn [lstrip]. destruct (is_space c) eqn:E; [exact IH|].
  cbn [rstrip]. rewrite E. cbn [andb lstrip]. by rewrite E.
Qed.

Lemma strip_idem s : strip (strip s) = strip s.
Proof. unfold strip. by rewrite lstrip_rstrip_lstrip, rstrip_idem. Qed.

End StrFacts.

(** * Properties of the fact-check auditor *)

Module AuditorProps.

Import PyStr FactCheckAuditor AuditorSpec StrFacts.

(** *** The state transformers *)

Lemma with_output_nil st : with_output [] st = st.
Proof.
  destruct st as [a [fs re we out]]. unfold with_output. cbn.
  by rewrite app_nil_r.
Qed.

Lemma with_output_app l1 l2 st :
  with_output l2 (with_output l1 st) = with_output (l1 ++ l2) st.
Proof.
  destruct st as [a [fs re we out]]. unfold with_output. cbn.
  by rewrite app_assoc.
Qed.

Lemma with_content_output c l st :
  with_content c (with_output l st) = with_output l (with_content c st).
Proof. reflexivity. Qed.

(** Reads the components of a state built by the transformers. *)
Ltac project_state :=
  cbn [fst snd with_output with_files with_content audited loaded
       self world files read_error write_error
       source_file report_file history_log expected_values content] in *.

Lemma self_with_output l st : self (with_output l st) = self st.
Proof. reflexivity. Qed.

Lemma files_with_output l st :
  files (world (with_output l st)) = files (world st).
Proof. reflexivity. Qed.

(** *** [audit] without the loop *)

Lemma audit_loop_spec items : forall acc st,
  audit_loop items acc st
  = (Some (acc ++ map (audit_result (self st)) items),
     with_output (map (audit_line (self st)) items) st).
Proof.
  induction items as [|[cat exp] rest IH]; intros acc st.
  - cbn. by rewrite app_nil_r, with_output_nil.
  - cbn [audit_loop map]. unfold bind, get_self at 1.
    unfold audit_result at 1, audit_line at 1. cbn [fst snd].
    destruct (audit_category cat exp (extract_value (self st) cat))
      as [st_cat line].
    unfold print at 1. rewrite IH.
    rewrite self_with_output, with_output_app, <- app_assoc.
    reflexivity.
Qed.

Lemma audit_spec st :
  audit st = (Some (audit_results (self st)),
              with_output (audit_console (self st)) st).
Proof.
  unfold audit, bind, print, get_self, ret.
  rewrite audit_loop_spec. cbn [app].
  rewrite !self_with_output, !with_output_app.
  reflexivity.
Qed.

Lemma audit_returns st : fst (audit st) = Some (audit_results (self st)).
Proof. by rewrite audit_spec. Qed.

Lemma in_audit_results a r :
  In r (audit_results a) ->
  exists cat exp,
    In (cat, exp) (expected_values a)
    /\ r = {| category := cat; expected := exp;
              actual := extract_value a cat;
              status := fst (audit_category cat exp (extract_value a cat)) |}.
Proof.
  unfold audit_results. rewrite in_map_iff.
  intros [[cat exp] [<- Hin]]. by exists cat, exp.
Qed.

(** *** The patterns on small inputs *)

Example search_leftmost :
  Regex.search (Regex.lit_capture "budget is ") "budget is . the budget is $5. more"
  = Some "$5".
Proof. reflexivity. Qed.

Example capture_spans_lines :
  option_map strip
    (Regex.search (Regex.lit_spaces_capture "risk level:")
       ("risk level:" +:+ newline +:+ "  high" +:+ newline +:+ " (for now). x"))
  = Some ("high" +:+ newline +:+ " (for now)").
Proof. reflexivity. Qed.

(** The star gives a space back when only a period follows: the group is
    that space, and the value extracted is the empty string, not [None]. *)
Example star_backtracks :
  Regex.search (Regex.lit_spaces_capture "risk level:") "risk level:  ." = Some " "
  /\ extract_value (loaded "Risk Level:  ." init) "Risk Level" = Some EmptyString
  /\ extract_value (loaded "Risk Level:." init) "Risk Level" = None.
Proof. repeat split; reflexivity. Qed.

(** *** [load_file] *)

Lemma load_file_missing st :
  files (world st) !! source_file (self st) = None ->
  load_file st
  = (Some false,
     with_output
       ["Error: File '" +:+ source_file (self st) +:+ "' does not exist."] st).
Proof.
  intros H. unfold load_file, bind, get_self, get_world. by rewrite H.
Qed.

Lemma load_file_unreadable st text e :
  files (world st) !! source_file (self st) = Some text ->
  read_error (world st) !! source_file (self st) = Some e ->
  load_file st = (Some false, with_output ["Error reading file: " +:+ e] st).
Proof.
  intros H1 H2. unfold load_file, bind, get_self, get_world.
  by rewrite H1, H2.
Qed.

Lemma load_file_ok st text :
  files (world st) !! source_file (self st) = Some text ->
  read_error (world st) !! source_file (self st) = None ->
  load_file st
  = (Some true,
     with_output
       ["✓ Loaded: " +:+ source_file (self st);
        "Content: " +:+ text +:+ newline]
       (with_content text st)).
Proof.
  intros H1 H2. unfold load_file, bind, get_self, get_world.
  rewrite H1, H2. unfold set_content, print, ret.
  by rewrite with_output_app.
Qed.

(** *** The classification *)

(** C1. In every audit run, a result of the category "Risk Level" whose
    actual value is "medium" or "high" in lower case, and differs from the
    expected value in lower case, has the status CRITICAL WARNING (so not
    MISMATCH); a result of any other category, or with an actual value
    outside the two, that differs from the expected value has the status
    MISMATCH. *)
Theorem risk_escalation (st : State) (results : list AuditResult)
    (r : AuditResult) (act : string) :
  fst (audit st) = Some results ->
  In r results ->
  actual r = Some act ->
  lower act <> lower (expected r) ->
  (category r = "Risk Level" ->
   lower act = "medium" \/ lower act = "high" ->
   status r = CRITICAL_WARNING /\ status r <> MISMATCH)
  /\ (category r <> "Risk Level"
      \/ (lower act <> "medium" /\ lower act <> "high") ->
      status r = MISMATCH).
Proof.
  rewrite audit_returns. intros [= <-] Hin Hact Hne.
  apply in_audit_results in Hin as (cat & exp & _ & ->).
  cbn [category expected actual status] in *.
  rewrite Hact. unfold audit_category.
  destruct (String.eqb_spec (lower act) (lower exp)) as [Heq|_]; [done|].
  unfold str_in, elevated. cbn [existsb].
  destruct (String.eqb_spec cat "Risk Level") as [Hcat|Hcat];
    destruct (String.eqb_spec (lower act) "medium") as [Hm|Hm];
    destruct (String.eqb_spec (lower act) "high") as [Hh|Hh];
    cbn; intuition congruence.
Qed.

Lemma risk_escalation_witness :
  exists r,
    In r (audit_results (self example_state))
    /\ category r = "Risk Level"
    /\ actual r = Some "high"
    /\ status r = CRITICAL_WARNING.
Proof.
  exists (audit_result (self example_state) ("Risk Level", "Low")).
  split; [vm_compute; tauto|].
  split; [reflexivity|]. split; [vm_compute; reflexivity|].
  refine (proj1 (proj1 (risk_escalation example_state
                   (audit_results (self example_state))
                   (audit_result (self example_state) ("Risk Level", "Low"))
                   "high" _ _ _ _) _ _)).
  - vm_compute; reflexivity.
  - vm_compute; tauto.
  - vm_compute; reflexivity.
  - vm_compute; discriminate.
  - reflexivity.
  - right; vm_compute; reflexivity.
Defined.

(** C4. In every audit run and for every category: the actual value of
    the result is what the extraction gives; when the extraction gives no
    value the status is DATA MISSING, and when the value equals the
    expected value up to case the status is MATCH. *)
Theorem missing_and_match (st : State) (results : list AuditResult)
    (r : AuditResult) :
  fst (audit st) = Some results ->
  In r results ->
  actual r = extract_value (self st) (category r)
  /\ (actual r = None -> status r = DATA_MISSING)
  /\ (forall act,
        actual r = Some act -> lower act = lower (expected r) ->
        status r = MATCH).
Proof.
  rewrite audit_returns. intros [= <-] Hin.
  apply in_audit_results in Hin as (cat & exp & _ & ->).
  cbn [category expected actual status].
  split; [reflexivity|]. split.
  - intros ->. reflexivity.
  - intros act -> Heq. unfold audit_category.
    by rewrite Heq, String.eqb_refl.
Qed.

Lemma missing_and_match_witness :
  exists r,
    In r (audit_results (self example_state))
    /\ category r = "Lead"
    /\ actual r = Some "sarah chen"
    /\ status r = MATCH.
Proof.
  exists (audit_result (self example_state) ("Lead", "Sarah Chen")).
  split; [vm_compute; tauto|].
  split; [reflexivity|]. split; [vm_compute; reflexivity|].
  refine (proj2 (proj2 (missing_and_match example_state
                   (audit_results (self example_state))
                   (audit_result (self example_state) ("Lead", "Sarah Chen"))
                   _ _)) "sarah chen" _ _).
  - vm_compute; reflexivity.
  - vm_compute; tauto.
  - vm_compute; reflexivity.
  - vm_compute; reflexivity.
Defined.

(** *** The example of the specification *)

(** C3. With the source file holding the example content, the run loads
    it and the audit gives Deadline MISMATCH, Lead MATCH, Budget MATCH and
    Risk Level CRITICAL WARNING; the actual value of the warning is shown
    in upper case, "HIGH", on the console, in the report and in the
    history entry. *)
Theorem example_audit (w : World) (timestamp : string) :
  files w !! source_file init = Some example_content ->
  read_error w !! source_file init = None ->
  exists st1 st2 results report entry,
    load_file {| self := init; world := w |} = (Some true, st1)
    /\ audit st1 = (Some results, st2)
    /\ results
       = [ {| category := "Deadline"; expected := "January 15th";
              actual := Some "march 3rd"; status := MISMATCH |};
           {| category := "Lead"; expected := "Sarah Chen";
              actual := Some "sarah chen"; status := MATCH |};
           {| category := "Budget"; expected := "$50,000";
              actual := Some "$50,000"; status := MATCH |};
           {| category := "Risk Level"; expected := "Low";
              actual := Some "high"; status := CRITICAL_WARNING |} ]
    /\ stdout (world st2)
       = stdout w
           ++ [ "✓ Loaded: project_specs.txt";
                "Content: " +:+ example_content +:+ newline;
                rule_eq; "AUDIT IN PROGRESS"; rule_eq;
                "Deadline: MISMATCH (Expected: January 15th, Found: march 3rd)";
                "Lead: MATCH (Sarah Chen)";
                "Budget: MATCH ($50,000)";
                "Risk Level: CRITICAL WARNING (Expected: Low, Found: HIGH)";
                rule_eq ]
    /\ report_lines (self st2) results = Some report
    /\ In "⚠️  Risk Level: HIGH" report
    /\ log_entry timestamp results = Some entry
    /\ In "  - Risk Level: Expected 'Low', Found 'HIGH'" entry.
Proof.
  intros Hfile Hread.
  rewrite (load_file_ok _ example_content) by assumption.
  eexists. eexists. eexists. eexists. eexists.
  split; [reflexivity|].
  split; [apply audit_spec|].
  split; [vm_compute; reflexivity|].
  split; [cbn; rewrite <- app_assoc; reflexivity|].
  split; [vm_compute; reflexivity|].
  split; [cbn; tauto|].
  split; [vm_compute; reflexivity|].
  cbn; tauto.
Qed.

Lemma example_audit_witness :
  fst (run "2026-01-01 00:00:00" {| self := init; world := example_world |})
  = Some true
  /\ exists results,
       fst (audit example_state) = Some results
       /\ map status results = [MISMATCH; MATCH; MATCH; CRITICAL_WARNING].
Proof.
  split; [vm_compute; reflexivity|].
  destruct (example_audit example_world "2026-01-01 00:00:00")
    as (st1 & st2 & results & report & entry & Hload & Haudit & Hres & _).
  - vm_compute; reflexivity.
  - vm_compute; reflexivity.
  - exists results. split.
    + rewrite Hres. vm_compute; reflexivity.
    + rewrite Hres. reflexivity.
Defined.

(** *** Counting *)

Lemma fold_add_ones t results : forall n,
  fold_left Nat.add
    (flat_map (fun r => if has_status t r then [1%nat] else []) results) n
  = (n + count_status t results)%nat.
Proof.
  unfold count_status, with_status.
  induction results as [|r rest IH]; intros n; cbn [flat_map List.filter].
  - cbn. lia.
  - destruct (has_status t r); cbn [app fold_left List.length].
    + rewrite IH. lia.
    + apply IH.
Qed.

(** The generator sum of the source counts the results with the status. *)
Lemma sum_ones_count t results : sum_ones t results = count_status t results.
Proof. unfold sum_ones. by rewrite fold_add_ones. Qed.

Lemma counts_total results :
  (count_status MATCH results + count_status MISMATCH results
   + count_status CRITICAL_WARNING results
   + count_status DATA_MISSING results)%nat
  = List.length results.
Proof.
  unfold count_status, with_status, has_status.
  induction results as [|r rest IH]; [reflexivity|].
  cbn [List.filter List.length]. destruct (status r); cbn; lia.
Qed.


(** *** What [audit] guarantees to the writers *)

Lemma audit_results_well_formed a : well_formed (audit_results a).
Proof.
  unfold well_formed. apply List.Forall_forall. intros r Hin.
  apply in_audit_results in Hin as (cat & exp & _ & ->).
  cbn [status actual]. unfold audit_category.
  destruct (extract_value a cat); [discriminate|].
  cbn. discriminate.
Qed.

Lemma audit_results_length a :
  List.length (audit_results a) = List.length (expected_values a).
Proof. unfold audit_results. apply length_map. Qed.

Lemma well_formed_warnings results :
  well_formed results ->
  Forall (fun r => actual r <> None) (with_status CRITICAL_WARNING results).
Proof.
  unfold well_formed, with_status. rewrite !List.Forall_forall.
  intros Hwf r Hin. apply List.filter_In in Hin as [Hin Hst].
  apply Hwf; [assumption|].
  unfold has_status in Hst. by destruct (status r).
Qed.

Lemma report_warning_lines_total warnings :
  Forall (fun r => actual r <> None) warnings ->
  exists ls, report_warning_lines warnings = Some ls.
Proof.
  induction 1 as [|r rest Hr _ [ls IH]]; cbn; [by eexists|].
  unfold actual_upper. destruct (actual r); [|done].
  cbn. rewrite IH. by eexists.
Qed.

Lemma log_critical_items_total warnings :
  Forall (fun r => actual r <> None) warnings ->
  exists ls, log_critical_items warnings = Some ls.
Proof.
  induction 1 as [|r rest Hr _ [ls IH]]; cbn; [by eexists|].
  unfold actual_upper. destruct (actual r); [|done].
  cbn. rewrite IH. by eexists.
Qed.

(** *** Lines joined into a text *)

Lemma join_lines_cons l rest :
  rest <> [] -> join_lines (l :: rest) = l +:+ newline +:+ join_lines rest.
Proof. by destruct rest. Qed.

Lemma join_lines_app l1 l2 :
  l1 <> [] -> l2 <> [] ->
  join_lines (l1 ++ l2) = join_lines l1 +:+ newline +:+ join_lines l2.
Proof.
  intros H1 H2. induction l1 as [|x l1 IH]; [done|].
  destruct l1 as [|y l1].
  - cbn [app]. by rewrite join_lines_cons.
  - change ((x :: y :: l1) ++ l2) with (x :: ((y :: l1) ++ l2)).
    rewrite join_lines_cons by done. rewrite IH by done.
    rewrite (join_lines_cons x (y :: l1)) by done.
    by rewrite !append_assoc.
Qed.

(** *** The report *)

(** For results the writers accept, the report is built and ends with
    the summary of the four counts. *)
Lemma report_lines_summary a results :
  well_formed results ->
  exists body,
    report_lines a results
    = Some (body
              ++ report_summary
                   (count_status MATCH results)
                   (count_status MISMATCH results)
                   (count_status CRITICAL_WARNING results)
                   (count_status DATA_MISSING results)).
Proof.
  intros Hwf. apply well_formed_warnings in Hwf.
  destruct (report_warning_lines_total _ Hwf) as [ls Hls].
  unfold report_lines. rewrite !sum_ones_count.
  destruct (with_status CRITICAL_WARNING results) as [|c cs] eqn:E.
  - eexists. rewrite !app_assoc. reflexivity.
  - rewrite Hls. cbn [option_map].
    eexists. rewrite !app_assoc. reflexivity.
Qed.

Lemma generate_report_ok results lines st :
  report_lines (self st) results = Some lines ->
  write_error (world st) !! report_file (self st) = None ->
  generate_report results st
  = (Some true,
     with_output [newline +:+ "✓ Report generated: " +:+ report_file (self st)]
       (with_files
          (<[report_file (self st) := join_lines lines]> (files (world st)))
          st)).
Proof.
  intros Hl Hw. unfold generate_report, bind, get_self, get_world.
  by rewrite Hl, Hw.
Qed.

Lemma generate_report_fault results lines e st :
  report_lines (self st) results = Some lines ->
  write_error (world st) !! report_file (self st) = Some e ->
  generate_report results st
  = (Some false,
     with_output [newline +:+ "Error generating report: " +:+ e] st).
Proof.
  intros Hl Hw. unfold generate_report, bind, get_self, get_world.
  by rewrite Hl, Hw.
Qed.

Lemma count_status_carrying t results :
  count_status t results = carrying t results.
Proof.
  unfold count_status, with_status, has_status, carrying.
  induction results as [|r rest IH]; [reflexivity|].
  cbn [List.filter map count_occ].
  destruct (Status_eq_dec (status r) t) as [Heq|Hne].
  - rewrite Heq. replace (status_eqb t t) with true by by destruct t.
    cbn [List.length]. by rewrite IH.
  - replace (status_eqb (status r) t) with false
      by by destruct (status r), t.
    exact IH.
Qed.

Lemma report_lines_summary_after a results :
  well_formed results ->
  exists body,
    body <> []
    /\ report_lines a results
       = Some (body
                 ++ report_summary
                      (count_status MATCH results)
                      (count_status MISMATCH results)
                      (count_status CRITICAL_WARNING results)
                      (count_status DATA_MISSING results)).
Proof.
  intros Hwf. apply well_formed_warnings in Hwf.
  destruct (report_warning_lines_total _ Hwf) as [ls Hls].
  unfold report_lines. rewrite !sum_ones_count.
  destruct (with_status CRITICAL_WARNING results) as [|c cs] eqn:E.
  - eexists. split; [|rewrite !app_assoc; reflexivity]. done.
  - rewrite Hls. cbn [option_map].
    eexists. split; [|rewrite !app_assoc; reflexivity]. done.
Qed.

(** C5. For the results of every audit, the report that [generate_report]
    builds ends with the lines of the summary: an empty line, "SUMMARY:",
    then "  MATCH: ", "  MISMATCH: ", "  CRITICAL WARNING: " and
    "  DATA MISSING: ", each followed by the number of results with that
    status, an empty line and the rule; the four numbers add up to the
    number of configured categories; and the report file, when it is
    written, ends with these lines. *)
Theorem summary_counts (st : State) (results : list AuditResult) :
  fst (audit st) = Some results ->
  let st1 := snd (audit st) in
  let matches := carrying MATCH results in
  let mismatches := carrying MISMATCH results in
  let critical := carrying CRITICAL_WARNING results in
  let missing := carrying DATA_MISSING results in
  exists body,
    report_lines (self st1) results
    = Some (body
              ++ [ EmptyString;
                   "SUMMARY:";
                   "  MATCH: " +:+ decimal matches;
                   "  MISMATCH: " +:+ decimal mismatches;
                   "  CRITICAL WARNING: " +:+ decimal critical;
                   "  DATA MISSING: " +:+ decimal missing;
                   EmptyString;
                   equals_rule ])
    /\ (matches + mismatches + critical + missing)%nat
       = List.length (expected_values (self st))
    /\ (write_error (world st1) !! report_file (self st1) = None ->
        exists text,
          files (world (snd (generate_report results st1)))
            !! report_file (self st1)
          = Some (text +:+ LF +:+ LF +:+ "SUMMARY:" +:+ LF
                    +:+ "  MATCH: " +:+ decimal matches +:+ LF
                    +:+ "  MISMATCH: " +:+ decimal mismatches +:+ LF
                    +:+ "  CRITICAL WARNING: " +:+ decimal critical +:+ LF
                    +:+ "  DATA MISSING: " +:+ decimal missing +:+ LF
                    +:+ LF +:+ equals_rule)).
Proof.
  rewrite audit_spec. cbn [fst snd]. intros [= <-].
  destruct (report_lines_summary_after
              (self (with_output (audit_console (self st)) st))
              (audit_results (self st))
              (audit_results_well_formed _)) as (body & Hne & Hbody).
  cbv zeta. rewrite <- !count_status_carrying.
  exists body. split; [exact Hbody|]. split.
  - rewrite counts_total. apply audit_results_length.
  - intros Hw. rewrite (generate_report_ok _ _ _ Hbody Hw).
    cbn [snd]. rewrite files_with_output. cbn [with_files world files].
    rewrite lookup_insert_eq. exists (join_lines body). f_equal.
    rewrite join_lines_app by done.
    unfold report_summary. cbn [join_lines].
    rewrite !append_assoc. reflexivity.
Qed.

Lemma summary_counts_witness :
  exists body,
    report_lines (self (snd (audit example_state)))
      (audit_results (self example_state))
    = Some (body
              ++ [ EmptyString; "SUMMARY:"; "  MATCH: 2"; "  MISMATCH: 1";
                   "  CRITICAL WARNING: 1"; "  DATA MISSING: 0";
                   EmptyString; equals_rule ]).
Proof.
  destruct (summary_counts example_state (audit_results (self example_state)))
    as (body & Hbody & _).
  - vm_compute; reflexivity.
  - exists body. exact Hbody.
Defined.

(** *** The history entry *)





Lemma log_entry_total timestamp results :
  well_formed results -> exists entry, log_entry timestamp results = Some entry.
Proof.
  intros Hwf. apply well_formed_warnings in Hwf.
  destruct (log_critical_items_total _ Hwf) as [items Hitems].
  unfold log_entry.
  destruct (with_status CRITICAL_WARNING results); [by eexists|].
  rewrite Hitems. by eexists.
Qed.

(** Splits a membership in a list built with [::] and [++] into its
    leaves. *)
Ltac in_leaves H :=
  repeat match type of H with
         | In _ (_ ++ _) => apply in_app_or in H; destruct H as [H|H]
         | In _ (_ :: _) => destruct H as [H|H]
         | In _ [] => destruct H
         end.




(** *** [log_to_history] and [run], step by step *)

Lemma log_to_history_ok timestamp results entry st :
  log_entry timestamp results = Some entry ->
  write_error (world st) !! history_log (self st) = None ->
  log_to_history timestamp results st
  = (Some true,
     with_output ["✓ History logged: " +:+ history_log (self st)]
       (with_files
          (<[history_log (self st) :=
               log_start (files (world st) !! history_log (self st))
                 +:+ join_lines entry]> (files (world st)))
          st)).
Proof.
  intros He Hw. unfold log_to_history, bind, get_self, get_world.
  rewrite He, Hw.
  by destruct (files (world st) !! history_log (self st)).
Qed.

Lemma log_to_history_fault timestamp results entry e st :
  log_entry timestamp results = Some entry ->
  write_error (world st) !! history_log (self st) = Some e ->
  log_to_history timestamp results st
  = (Some false, with_output ["Error logging to history: " +:+ e] st).
Proof.
  intros He Hw. unfold log_to_history, bind, get_self, get_world.
  by rewrite He, Hw.
Qed.

Lemma log_to_history_raises timestamp results st :
  log_entry timestamp results = None ->
  log_to_history timestamp results st = (None, st).
Proof.
  intros He. unfold log_to_history, bind, get_self. by rewrite He.
Qed.

Lemma run_not_loaded timestamp st line :
  load_file (with_output run_banner st) = (Some false, with_output [line] (with_output run_banner st)) ->
  run timestamp st = (Some false, with_output (run_banner ++ [line]) st).
Proof.
  intros H. unfold run, bind, print. rewrite !with_output_app.
  change ([newline +:+ rule_eq] ++ ["FACT-CHECK AUDITOR"] ++ [rule_eq +:+ newline])
    with run_banner.
  rewrite H. cbn [negb]. unfold ret. by rewrite with_output_app.
Qed.

Lemma run_loaded timestamp st text :
  files (world st) !! source_file (self st) = Some text ->
  read_error (world st) !! source_file (self st) = None ->
  run timestamp st
  = match generate_report (audit_results (loaded text (self st)))
            (audited text st) with
    | (Some _, st2) =>
        match log_to_history timestamp
                (audit_results (loaded text (self st))) st2 with
        | (Some _, st3) =>
            (Some true, with_output [newline +:+ "Audit complete!"] st3)
        | (None, st3) => (None, st3)
        end
    | (None, st2) => (None, st2)
    end.
Proof.
  intros Hf Hr. unfold run, bind, print. rewrite !with_output_app.
  rewrite (load_file_ok _ text) by assumption.
  cbn [negb]. rewrite audit_spec.
  rewrite with_content_output, !with_output_app, <- !app_assoc.
  reflexivity.
Qed.

Lemma audited_report_lines text st :
  exists lines,
    report_lines (self (audited text st))
      (audit_results (loaded text (self st))) = Some lines.
Proof.
  destruct (report_lines_summary (self (audited text st))
              (audit_results (loaded text (self st)))
              (audit_results_well_formed _)) as [body Hbody].
  eexists. exact Hbody.
Qed.

(** *** Failures *)

(** C8. When the source file does not exist, or reading it raises, [run]
    returns [False] after printing the error; the state it leaves is the
    initial one with these lines printed: no content loaded, no audit
    line, no file written, so no report and no history entry. *)
Theorem load_failure_short_circuits (timestamp : string) (st : State) :
  (files (world st) !! source_file (self st) = None ->
   run timestamp st
   = (Some false,
      with_output
        (run_banner
           ++ ["Error: File '" +:+ source_file (self st)
                 +:+ "' does not exist."])
        st))
  /\ (forall text e,
        files (world st) !! source_file (self st) = Some text ->
        read_error (world st) !! source_file (self st) = Some e ->
        run timestamp st
        = (Some false,
           with_output (run_banner ++ ["Error reading file: " +:+ e]) st)).
Proof.
  split.
  - intros H. apply run_not_loaded.
    apply (load_file_missing (with_output run_banner st)). exact H.
  - intros text e H1 H2. apply run_not_loaded.
    apply (load_file_unreadable (with_output run_banner st) text e).
    + exact H1.
    + exact H2.
Qed.

Lemma load_failure_short_circuits_witness :
  run "2026-01-01 00:00:00" {| self := init; world := empty_world |}
  = (Some false,
     with_output
       (run_banner ++ ["Error: File 'project_specs.txt' does not exist."])
       {| self := init; world := empty_world |})
  /\ run "2026-01-01 00:00:00" {| self := init; world := unreadable_world |}
     = (Some false,
        with_output
          (run_banner ++ ["Error reading file: [Errno 13] Permission denied: 'project_specs.txt'"])
          {| self := init; world := unreadable_world |}).
Proof.
  split.
  - refine (proj1 (load_failure_short_circuits _ _) _).
    vm_compute; reflexivity.
  - refine (proj2 (load_failure_short_circuits _ _) example_content _ _ _).
    + vm_compute; reflexivity.
    + vm_compute; reflexivity.
Defined.

(** C9. Once the source file is loaded, [run] returns [True] whatever
    the writers do.  When writing the report raises, the error is printed
    and the history entry is still appended: the files after the run are
    the files before it with the history log extended by the entry. *)
Theorem report_failure_not_fatal (timestamp : string) (st : State)
    (text : string) :
  files (world st) !! source_file (self st) = Some text ->
  read_error (world st) !! source_file (self st) = None ->
  fst (run timestamp st) = Some true
  /\ (forall e,
        write_error (world st) !! report_file (self st) = Some e ->
        In (newline +:+ "Error generating report: " +:+ e)
           (stdout (world (snd (run timestamp st))))
        /\ (write_error (world st) !! history_log (self st) = None ->
            exists entry,
              log_entry timestamp (audit_results (loaded text (self st)))
              = Some entry
              /\ files (world (snd (run timestamp st)))
                 = <[history_log (self st) :=
                       log_start (files (world st) !! history_log (self st))
                         +:+ join_lines entry]> (files (world st)))).
Proof.
  intros Hf Hr. rewrite (run_loaded _ _ text) by assumption.
  destruct (audited_report_lines text st) as [lines Hlines].
  destruct (log_entry_total timestamp _
              (audit_results_well_formed (loaded text (self st))))
    as [entry Hentry].
  split.
  - destruct (write_error (world st) !! report_file (self st)) as [e|] eqn:Hw.
    + rewrite (generate_report_fault _ lines e) by assumption.
      destruct (write_error (world st) !! history_log (self st)) as [e'|] eqn:Hl.
      * by rewrite (log_to_history_fault _ _ entry e').
      * by rewrite (log_to_history_ok _ _ entry).
    + rewrite (generate_report_ok _ lines) by assumption.
      destruct (write_error (world st) !! history_log (self st)) as [e'|] eqn:Hl.
      * by rewrite (log_to_history_fault _ _ entry e').
      * by rewrite (log_to_history_ok _ _ entry).
  - intros e Hw. rewrite (generate_report_fault _ lines e) by assumption.
    split.
    + destruct (write_error (world st) !! history_log (self st)) as [e'|] eqn:Hl.
      * rewrite (log_to_history_fault _ _ entry e') by assumption.
        cbn [snd]. rewrite !with_output_app.
        apply in_or_app. right. apply in_or_app. left. by left.
      * rewrite (log_to_history_ok _ _ entry) by assumption.
        cbn [snd]. apply in_or_app. left. apply in_or_app. left.
        apply in_or_app. right. by left.
    + intros Hl. exists entry. split; [assumption|].
      by rewrite (log_to_history_ok _ _ entry).
Qed.

Lemma report_failure_not_fatal_witness :
  fst (run "2026-01-01 00:00:00" {| self := init; world := read_only_report_world |})
  = Some true
  /\ files (world (snd (run "2026-01-01 00:00:00"
                          {| self := init; world := read_only_report_world |})))
       !! "audit_report.txt" = None
  /\ is_Some (files (world (snd (run "2026-01-01 00:00:00"
                          {| self := init; world := read_only_report_world |})))
       !! "audit_history.log").
Proof.
  split; [|split].
  - refine (proj1 (report_failure_not_fatal _ _ example_content _ _)).
    + vm_compute; reflexivity.
    + vm_compute; reflexivity.
  - vm_compute; reflexivity.
  - vm_compute. by eexists.
Defined.

(** *** The history log *)

Lemma append_empty_r (s : string) : s +:+ EmptyString = s.
Proof.
  induction s as [|c s IH]; [reflexivity|].
  change (String c (s +:+ EmptyString) = String c s). by rewrite IH.
Qed.

Lemma main_world timestamp w :
  snd (main timestamp w)
  = world (snd (run timestamp {| self := init; world := w |})).
Proof.
  unfold main. by destruct (run timestamp _) as [[b|] st].
Qed.

(** One run whose source file loads and whose history log can be
    written: the log gets the entry of the run, the report file is the
    only other file touched, the faults stay as they were. *)
Lemma run_history timestamp st text :
  files (world st) !! source_file (self st) = Some text ->
  read_error (world st) !! source_file (self st) = None ->
  write_error (world st) !! history_log (self st) = None ->
  report_file (self st) <> history_log (self st) ->
  exists entry,
    log_entry timestamp (audit_results (loaded text (self st))) = Some entry
    /\ files (world (snd (run timestamp st))) !! history_log (self st)
       = Some (log_start (files (world st) !! history_log (self st))
                 +:+ join_lines entry)
    /\ (forall p, p <> report_file (self st) -> p <> history_log (self st) ->
          files (world (snd (run timestamp st))) !! p = files (world st) !! p)
    /\ read_error (world (snd (run timestamp st))) = read_error (world st)
    /\ write_error (world (snd (run timestamp st))) = write_error (world st).
Proof.
  intros Hf Hr Hl Hne. rewrite (run_loaded _ _ text) by assumption.
  destruct (audited_report_lines text st) as [lines Hlines].
  destruct (log_entry_total timestamp _
              (audit_results_well_formed (loaded text (self st))))
    as [entry Hentry].
  exists entry. split; [assumption|].
  destruct (write_error (world st) !! report_file (self st)) as [e|] eqn:Hw.
  - rewrite (generate_report_fault _ lines e) by assumption.
    rewrite (log_to_history_ok _ _ entry) by assumption.
    project_state.
    split; [apply lookup_insert_eq|].
    split; [|done].
    intros p _ Hp. by rewrite lookup_insert_ne.
  - rewrite (generate_report_ok _ lines) by assumption.
    rewrite (log_to_history_ok _ _ entry) by assumption.
    project_state.
    split.
    + rewrite lookup_insert_eq. by rewrite lookup_insert_ne.
    + split; [|done].
      intros p Hp1 Hp2. by rewrite !lookup_insert_ne.
Qed.

Lemma log_start_text prior :
  log_start prior
  = match prior with
    | Some bytes => bytes
    | None =>
        equals_rule +:+ LF +:+ "AUDIT HISTORY LOG" +:+ LF
          +:+ equals_rule +:+ LF +:+ LF
    end.
Proof. by destruct prior. Qed.

(** C6. The history log only grows.  Whatever [log_to_history] does, the
    prior content of the log is a prefix of its content afterwards.  When
    the entry is written, a log that existed is its prior content followed
    by the entry, and a log that did not exist is the banner, the rule,
    "AUDIT HISTORY LOG", the rule and an empty line, followed by the
    entry.  Two runs one after the other leave the first run's log
    followed by the second entry. *)
Theorem history_append_only :
  let banner :=
    equals_rule +:+ LF +:+ "AUDIT HISTORY LOG" +:+ LF
      +:+ equals_rule +:+ LF +:+ LF in
  (forall timestamp results st prior,
     files (world st) !! history_log (self st) = Some prior ->
     exists added,
       files (world (snd (log_to_history timestamp results st)))
         !! history_log (self st)
       = Some (prior +:+ added))
  /\ (forall timestamp results st entry,
        log_entry timestamp results = Some entry ->
        write_error (world st) !! history_log (self st) = None ->
        fst (log_to_history timestamp results st) = Some true
        /\ (forall prior,
              files (world st) !! history_log (self st) = Some prior ->
              files (world (snd (log_to_history timestamp results st)))
              = <[history_log (self st) := prior +:+ join_lines entry]>
                  (files (world st)))
        /\ (files (world st) !! history_log (self st) = None ->
            files (world (snd (log_to_history timestamp results st)))
            = <[history_log (self st) := banner +:+ join_lines entry]>
                (files (world st))))
  /\ (forall timestamp1 timestamp2 w text,
        files w !! source_file init = Some text ->
        read_error w !! source_file init = None ->
        write_error w !! history_log init = None ->
        let start :=
          match files w !! history_log init with
          | Some prior => prior
          | None => banner
          end in
        exists entry1 entry2,
          log_entry timestamp1 (audit_results (loaded text init)) = Some entry1
          /\ log_entry timestamp2 (audit_results (loaded text init)) = Some entry2
          /\ files (snd (main timestamp1 w)) !! history_log init
             = Some (start +:+ join_lines entry1)
          /\ files (snd (main timestamp2 (snd (main timestamp1 w))))
               !! history_log init
             = Some ((start +:+ join_lines entry1) +:+ join_lines entry2)).
Proof.
  cbv zeta. split; [|split].
  - intros timestamp results st prior Hprior.
    destruct (log_entry timestamp results) as [entry|] eqn:He.
    + destruct (write_error (world st) !! history_log (self st)) as [e|] eqn:Hw.
      * rewrite (log_to_history_fault _ _ entry e) by assumption.
        exists EmptyString. by rewrite append_empty_r.
      * rewrite (log_to_history_ok _ _ entry) by assumption.
        exists (join_lines entry). cbn [snd].
        rewrite files_with_output. cbn [with_files world files].
        by rewrite lookup_insert_eq, Hprior.
    + rewrite log_to_history_raises by assumption.
      exists EmptyString. by rewrite append_empty_r.
  - intros timestamp results st entry He Hw.
    rewrite (log_to_history_ok _ _ entry) by assumption.
    split; [done|].
    cbn [snd]. rewrite files_with_output. cbn [with_files world files].
    rewrite log_start_text.
    split; [intros prior Hprior|intros Hprior]; by rewrite Hprior.
  - intros timestamp1 timestamp2 w text Hf Hr Hl.
    destruct (run_history timestamp1 {| self := init; world := w |} text)
      as (entry1 & He1 & Hlog1 & Hframe1 & Hre1 & Hwe1); try done.
    rewrite <- main_world in Hlog1, Hframe1, Hre1, Hwe1.
    destruct (run_history timestamp2
                {| self := init; world := snd (main timestamp1 w) |} text)
      as (entry2 & He2 & Hlog2 & _); try done.
    + cbn [self world]. rewrite Hframe1; done.
    + cbn [self world]. by rewrite Hre1.
    + cbn [self world]. by rewrite Hwe1.
    + rewrite <- main_world in Hlog2. cbn [self world] in *.
      rewrite log_start_text in Hlog1.
      exists entry1, entry2. split; [done|]. split; [done|].
      split; [done|].
      rewrite Hlog2, Hlog1. reflexivity.
Qed.

Lemma history_append_only_witness :
  exists entry1 entry2,
    files (snd (main "2026-01-01 00:00:00" example_world))
      !! "audit_history.log"
    = Some ((equals_rule +:+ LF +:+ "AUDIT HISTORY LOG" +:+ LF
               +:+ equals_rule +:+ LF +:+ LF)
              +:+ join_lines entry1)
    /\ files (snd (main "2026-01-02 00:00:00"
                     (snd (main "2026-01-01 00:00:00" example_world))))
         !! "audit_history.log"
       = Some (((equals_rule +:+ LF +:+ "AUDIT HISTORY LOG" +:+ LF
                   +:+ equals_rule +:+ LF +:+ LF)
                  +:+ join_lines entry1)
                 +:+ join_lines entry2).
Proof.
  destruct (proj2 (proj2 history_append_only)
              "2026-01-01 00:00:00" "2026-01-02 00:00:00"
              example_world example_content)
    as (entry1 & entry2 & _ & _ & H1 & H2).
  - vm_compute; reflexivity.
  - vm_compute; reflexivity.
  - vm_compute; reflexivity.
  - exists entry1, entry2. split; [exact H1|exact H2].
Defined.

End AuditorProps.

(** * Properties of the directory scanner *)

Module ScannerProps.

Import PyStr FileScanner ScannerSpec.

(** *** Sizes *)

Lemma format_size_500 : format_size 500 = "500.00 B".
Proof. vm_compute; reflexivity. Qed.

Lemma format_size_2048 : format_size 2048 = "2.00 KB".
Proof. vm_compute; reflexivity. Qed.

Lemma format_size_2548 : format_size 2548 = "2.49 KB".
Proof. vm_compute; reflexivity. Qed.

(** Units change at the powers of 1024; a tie goes to the even hundredth;
    rounding may reach 1024.00 of a unit. *)
Example format_size_samples :
  map format_size [0; 1023; 1024; 1152; 1048575; 1048576; 1125899906842624]%N
  = ["0.00 B"; "1023.00 B"; "1.00 KB"; "1.12 KB"; "1024.00 KB"; "1.00 MB";
     "1.00 PB"].
Proof. vm_compute; reflexivity. Qed.

(** *** The loop over the files *)

Lemma scan_files_spec files : forall total out,
  scan_files files total out
  = ((total + readable_total files)%N, out ++ map file_row files).
Proof.
  induction files as [|f rest IH]; intros total out; cbn [scan_files].
  - cbn. by rewrite N.add_0_r, app_nil_r.
  - cbn [readable_total map].
    assert (Hrow : file_row f
                   = match st_size f with
                     | Some size => row (name f) (format_size size)
                     | None => row (name f) "Error"
                     end) by reflexivity.
    destruct (st_size f) as [size|]; rewrite IH, <- app_assoc, Hrow; cbn [app].
    + by rewrite N.add_assoc.
    + reflexivity.
Qed.

Lemma readable_total_app l1 l2 :
  readable_total (l1 ++ l2) = (readable_total l1 + readable_total l2)%N.
Proof.
  induction l1 as [|f l1 IH]; [reflexivity|].
  cbn [app readable_total]. destruct (st_size f); rewrite IH; lia.
Qed.

(** *** The sort *)

Lemma ltb_asym s t : String.ltb s t = true -> String.ltb t s = false.
Proof.
  unfold String.ltb. rewrite (String.compare_antisym t s).
  by destruct (String.compare s t).
Qed.

Lemma insert_sorted_perm f sorted : Permutation (insert_sorted f sorted) (f :: sorted).
Proof.
  induction sorted as [|g rest IH]; cbn [insert_sorted]; [done|].
  destruct (String.ltb (sort_key f) (sort_key g)); [done|].
  rewrite IH. apply perm_swap.
Qed.

Lemma sort_files_perm files : Permutation (sort_files files) files.
Proof.
  unfold sort_files.
  assert (H : forall acc, Permutation
                (fold_left (fun sorted f => insert_sorted f sorted) files acc)
                (acc ++ files)).
  { induction files as [|f rest IH]; intros acc; cbn [fold_left].
    - by rewrite app_nil_r.
    - rewrite IH, insert_sorted_perm. apply Permutation_middle. }
  apply (H []).
Qed.

(** The files come out in the order of their keys. *)
Lemma insert_sorted_hd f g sorted :
  key_le g f -> HdRel key_le g sorted -> HdRel key_le g (insert_sorted f sorted).
Proof.
  intros Hgf Hhd. destruct sorted as [|h rest]; cbn [insert_sorted].
  - by constructor.
  - destruct (String.ltb (sort_key f) (sort_key h)); constructor; [done|].
    by inversion Hhd.
Qed.

Lemma insert_sorted_sorted f sorted :
  Sorted key_le sorted -> Sorted key_le (insert_sorted f sorted).
Proof.
  induction 1 as [|g rest Hsorted IH Hhd]; cbn [insert_sorted].
  - by repeat constructor.
  - destruct (String.ltb (sort_key f) (sort_key g)) eqn:E.
    + constructor; [by constructor|]. constructor.
      unfold key_le. by apply ltb_asym.
    + constructor; [exact IH|]. by apply insert_sorted_hd.
Qed.

Lemma sort_files_sorted files : Sorted key_le (sort_files files).
Proof.
  unfold sort_files.
  assert (H : forall acc, Sorted key_le acc ->
                Sorted key_le
                  (fold_left (fun sorted f => insert_sorted f sorted) files acc)).
  { induction files as [|f rest IH]; intros acc Hacc; cbn [fold_left]; [done|].
    apply IH. by apply insert_sorted_sorted. }
  apply H. constructor.
Qed.

(** The scan of a directory that holds files, without the loop. *)
Lemma scan_directory_spec path absolute entries :
  List.filter is_file entries <> [] ->
  let files := sort_files (List.filter is_file entries) in
  scan_directory path (Dir absolute entries)
  = (scan_head absolute ++ map file_row files
       ++ scan_foot (format_size (readable_total files)) (List.length files),
     None).
Proof.
  intros Hne files. unfold scan_directory.
  destruct (List.filter is_file entries) as [|f fs] eqn:E; [done|].
  rewrite scan_files_spec. rewrite N.add_0_l.
  unfold scan_head, scan_foot. fold files.
  by rewrite <- !app_assoc.
Qed.

(** *** A file whose size cannot be read *)

(** C10.  The scan does not go on past every file whose [stat()] fails.
    In a directory that can be listed but not searched, the [is_file()] of
    the first entry raises where the list of files is built, outside the
    [try] of the loop: the scan prints the three lines of its banner and
    stops with that exception, with no table, no "Error" line, no total
    and no count.  And an entry whose [stat()] finds no file is taken for
    no file: no line names it, no line shows "Error", and the count is
    that of the other files. *)
Theorem stat_failure_aborts_scan :
  (forall path absolute error,
     scan_directory path (Unlistable absolute error)
     = ([ nl +:+ rule60; "Scanning: " +:+ absolute; rule60 +:+ nl ],
        Some error))
  /\ snd (scan_directory "." unsearchable)
     = Some "[Errno 13] Permission denied: '/data/a.txt'"
  /\ List.length (fst (scan_directory "." unsearchable)) = 3%nat
  /\ Forall (fun line => String.index 0 "Error" line = None
                         /\ String.index 0 "Total" line = None)
       (fst (scan_directory "." unsearchable))
  /\ scan_directory "." with_dangling_link
     = (scan_head "/data" ++ [row "b.txt" "2.00 KB"]
          ++ [ row_rule; row "Total:" "2.00 KB";
               nl +:+ "Total files: 1"; rule60 +:+ nl ],
        None)
  /\ Forall (fun line => String.index 0 "Error" line = None
                         /\ String.index 0 "a.lnk" line = None)
       (fst (scan_directory "." with_dangling_link))
  /\ In (String "010" "Total files: 1")
       (fst (scan_directory "." with_dangling_link)).
Proof.
  split; [reflexivity|].
  split; [vm_compute; reflexivity|].
  split; [vm_compute; reflexivity|].
  split; [vm_compute; repeat constructor|].
  split; [vm_compute; reflexivity|].
  split; [vm_compute; repeat constructor|].
  vm_compute. tauto.
Qed.

(** *** The example of the specification *)

(** C2, as the specification states it, fails: the total of 2548 bytes is
    printed as "2.49 KB", and no line of the scan shows "2.44 KB". *)
Lemma total_is_not_2_44 :
  format_size (500 + 2048) <> "2.44 KB"
  /\ ~ In (row "Total:" "2.44 KB") (fst (scan_directory "." two_files))
  /\ In (row "Total:" "2.49 KB") (fst (scan_directory "." two_files)).
Proof.
  split; [vm_compute; discriminate|]. split.
  - vm_compute. intuition discriminate.
  - vm_compute. tauto.
Qed.

(** C2, amended.  Scanning a directory that holds exactly a file of 500
    bytes and a file of 2048 bytes, in whichever order the directory
    lists them, prints the two files in the order of their names in
    lower case, with the sizes "500.00 B" and "2.00 KB", then the total
    of 2548 bytes as "2.49 KB" and the count 2. *)
Theorem two_files_scan (path absolute n500 n2048 : string) :
  (String.ltb (lower n500) (lower n2048) = true ->
   let printed :=
     scan_head absolute
       ++ [row n500 "500.00 B"; row n2048 "2.00 KB"]
       ++ scan_foot "2.49 KB" 2 in
   scan_directory path (Dir absolute [file_of n500 500; file_of n2048 2048])
   = (printed, None)
   /\ scan_directory path (Dir absolute [file_of n2048 2048; file_of n500 500])
      = (printed, None))
  /\ (String.ltb (lower n2048) (lower n500) = true ->
      let printed :=
        scan_head absolute
          ++ [row n2048 "2.00 KB"; row n500 "500.00 B"]
          ++ scan_foot "2.49 KB" 2 in
      scan_directory path (Dir absolute [file_of n500 500; file_of n2048 2048])
      = (printed, None)
      /\ scan_directory path (Dir absolute [file_of n2048 2048; file_of n500 500])
         = (printed, None)).
Proof.
  split; intros Hlt; pose proof (ltb_asym _ _ Hlt) as Hge; cbv zeta;
    (split; rewrite scan_directory_spec by done; cbv zeta;
     unfold sort_files, file_of;
     cbn [List.filter is_file fold_left insert_sorted];
     unfold sort_key; cbn [name];
     rewrite ?Hlt, ?Hge; unfold file_row;
     cbn [map st_size name readable_total List.length];
     rewrite ?format_size_500, ?format_size_2048;
     change (500 + (2048 + 0))%N with 2548%N;
     change (2048 + (500 + 0))%N with 2548%N;
     by rewrite format_size_2548).
Qed.

Lemma two_files_scan_witness :
  scan_directory "." two_files
  = (scan_head "/data"
       ++ [row "Hello.txt" "500.00 B"; row "notes.txt" "2.00 KB"]
       ++ scan_foot "2.49 KB" 2,
     None).
Proof.
  refine (proj2 (proj1 (two_files_scan "." "/data" "Hello.txt" "notes.txt") _)).
  vm_compute; reflexivity.
Defined.

End ScannerProps.



(** * More properties of the extraction *)

Module ExtractProps.

Import PyStr Regex FactCheckAuditor AuditorSpec CoverageSpec StrFacts.

Lemma extract_value_cases a cat :
  extract_value a cat
  = match content a, lead_in cat with
    | Some text, Some phrase =>
        if is_empty text then None
        else option_map strip (search (pattern_at cat phrase) (lower text))
    | _, _ => None
    end.
Proof.
  unfold extract_value, lead_in, pattern_at.
  destruct (content a) as [text|]; [|done].
  destruct (is_empty text); [by repeat destruct (String.eqb _ _)|].
  destruct (String.eqb_spec cat "Deadline") as [->|]; [done|].
  destruct (String.eqb_spec cat "Lead") as [->|]; [done|].
  destruct (String.eqb_spec cat "Budget") as [->|]; [done|].
  destruct (String.eqb_spec cat "Risk Level") as [->|]; done.
Qed.

Lemma extract_value_some a cat v :
  extract_value a cat = Some v ->
  exists text phrase g,
    content a = Some text /\ is_empty text = false
    /\ lead_in cat = Some phrase
    /\ search (pattern_at cat phrase) (lower text) = Some g
    /\ v = strip g.
Proof.
  rewrite extract_value_cases.
  destruct (content a) as [text|]; [|done].
  destruct (lead_in cat) as [phrase|]; [|done].
  destruct (is_empty text) eqn:E; [done|].
  destruct (search _ _) as [g|] eqn:Es; [|done].
  intros [= <-]. by exists text, phrase, g.
Qed.

Lemma pattern_at_all p cat phrase t h :
  all_chars p t = true -> pattern_at cat phrase t = Some h ->
  all_chars p h = true.
Proof.
  unfold pattern_at, lit_capture, lit_spaces_capture. intros Ht.
  destruct (String.eqb cat "Risk Level");
    destruct (strip_prefix phrase t) as [rest|] eqn:E; try done;
    pose proof (all_strip_prefix p _ _ _ Ht E) as Hrest.
  - by apply all_spaces_then_capture.
  - by apply all_capture.
Qed.

Lemma pattern_at_no_dot cat phrase t h :
  pattern_at cat phrase t = Some h -> all_chars not_dot h = true.
Proof.
  unfold pattern_at, lit_capture, lit_spaces_capture.
  destruct (String.eqb cat "Risk Level");
    destruct (strip_prefix phrase t) as [rest|]; try done.
  - apply spaces_then_capture_no_dot.
  - apply capture_no_dot.
Qed.

(** X1. A value [extract_value] returns holds no period, is in lower case
    and has no whitespace at either end. *)
Theorem extract_value_normal_form (a : Auditor) (category v : string) :
  extract_value a category = Some v ->
  all_chars not_dot v = true /\ lower v = v /\ strip v = v.
Proof.
  intros H.
  apply extract_value_some in H
    as (text & phrase & g & _ & _ & _ & Hsearch & ->).
  destruct (search_found _ _ _ Hsearch) as (pre & rest & _ & Hat).
  split; [|split].
  - apply all_strip. by eapply pattern_at_no_dot.
  - apply lowered_fixed, all_strip.
    eapply all_search; [|apply lower_is_lowered|exact Hsearch].
    intros t h. apply pattern_at_all.
  - apply strip_idem.
Qed.

Lemma extract_value_normal_form_witness :
  extract_value (loaded "Lead engineer is  Sarah CHEN . Then" init) "Lead"
  = Some "sarah chen"
  /\ lower "sarah chen" = "sarah chen".
Proof.
  split; [vm_compute; reflexivity|].
  refine (proj1 (proj2 (extract_value_normal_form
                          (loaded "Lead engineer is  Sarah CHEN . Then" init)
                          "Lead" "sarah chen" _))).
  vm_compute; reflexivity.
Defined.

(** *** Where the value comes from *)

Lemma strip_prefix_app lit : forall s rest,
  strip_prefix lit s = Some rest -> s = lit +:+ rest.
Proof.
  induction lit as [|a lit IH]; intros s rest.
  - destruct s; cbn; by intros [= <-].
  - destruct s as [|b s]; cbn; [done|].
    destruct (Ascii.eqb_spec a b) as [->|]; [|done].
    intros H. rewrite append_cons. f_equal. by apply IH.
Qed.

Lemma strip_prefix_here lit rest : strip_prefix lit (lit +:+ rest) = Some rest.
Proof.
  induction lit as [|a lit IH]; [by destruct rest|].
  rewrite append_cons. cbn. by rewrite Ascii.eqb_refl.
Qed.

Lemma take_while_split q s :
  exists post,
    s = take_while q s +:+ post
    /\ (post = EmptyString \/ exists c r, post = String c r /\ q c = false).
Proof.
  induction s as [|c s (post & Hs & Hpost)].
  - exists EmptyString. split; [done|by left].
  - cbn. destruct (q c) eqn:E.
    + exists post. rewrite append_cons. split; [by f_equal|done].
    + exists (String c s). split; [done|]. right. by exists c, s.
Qed.

Lemma capture_split s g :
  capture s = Some g ->
  exists post, s = g +:+ post /\ stops_group post /\ g <> EmptyString.
Proof.
  unfold capture.
  destruct (take_while_split not_dot s) as (post & Hs & Hpost).
  destruct (take_while not_dot s) as [|c g'] eqn:E; [done|].
  cbn. intros [= <-]. exists post. split; [done|]. split; [|done].
  destruct Hpost as [->|(d & r & -> & Hd)]; [by left|].
  right. exists r. f_equal.
  unfold not_dot in Hd. apply negb_false_iff in Hd. by apply Ascii.eqb_eq in Hd.
Qed.

Lemma spaces_then_capture_split s : forall g,
  spaces_then_capture s = Some g ->
  exists ws post,
    s = ws +:+ g +:+ post /\ all_chars is_space ws = true
    /\ stops_group post /\ g <> EmptyString.
Proof.
  assert (Hcap : forall t g, capture t = Some g ->
            exists ws post,
              t = ws +:+ g +:+ post /\ all_chars is_space ws = true
              /\ stops_group post /\ g <> EmptyString).
  { intros t g H. destruct (capture_split _ _ H) as (post & -> & Hp & Hg).
    by exists EmptyString, post. }
  induction s as [|c s IH]; intros g; cbn [spaces_then_capture].
  - apply Hcap.
  - destruct (is_space c) eqn:E; [|apply Hcap].
    destruct (spaces_then_capture s) as [g'|]; [|apply Hcap].
    intros [= <-]. destruct (IH _ eq_refl) as (ws & post & -> & Hws & Hp & Hg).
    exists (String c ws), post. rewrite append_cons.
    split; [done|]. split; [|done]. cbn. by rewrite E.
Qed.

Lemma pattern_at_split cat phrase t g :
  pattern_at cat phrase t = Some g ->
  exists ws post,
    t = phrase +:+ ws +:+ g +:+ post
    /\ all_chars is_space ws = true
    /\ (cat <> "Risk Level" -> ws = EmptyString)
    /\ stops_group post /\ g <> EmptyString.
Proof.
  unfold pattern_at, lit_capture, lit_spaces_capture.
  destruct (String.eqb_spec cat "Risk Level") as [->|Hcat];
    destruct (strip_prefix phrase t) as [rest|] eqn:E; try done;
    apply strip_prefix_app in E as ->; intros H.
  - destruct (spaces_then_capture_split _ _ H) as (ws & post & -> & Hws & Hp & Hg).
    by exists ws, post.
  - destruct (capture_split _ _ H) as (post & -> & Hp & Hg).
    by exists EmptyString, post.
Qed.

(** X2. A value [extract_value] returns comes from an occurrence, in the
    content in lower case, of the phrase of the category: after the phrase
    (and, for the risk level only, some whitespace) comes a non-empty group
    without a period, which ends at a period or at the end of the content;
    the value is the group without the whitespace at its ends. *)
Theorem extract_value_sound (a : Auditor) (category v : string) :
  extract_value a category = Some v ->
  exists text phrase pre ws g post,
    content a = Some text
    /\ lead_in category = Some phrase
    /\ lower text = pre +:+ phrase +:+ ws +:+ g +:+ post
    /\ all_chars is_space ws = true
    /\ (category <> "Risk Level" -> ws = EmptyString)
    /\ g <> EmptyString
    /\ all_chars not_dot g = true
    /\ stops_group post
    /\ v = strip g.
Proof.
  intros H.
  apply extract_value_some in H
    as (text & phrase & g & Htext & _ & Hlead & Hsearch & ->).
  destruct (search_found _ _ _ Hsearch) as (pre & rest & Hrest & Hat).
  destruct (pattern_at_split _ _ _ _ Hat)
    as (ws & post & -> & Hws & Hcat & Hpost & Hg).
  exists text, phrase, pre, ws, g, post.
  repeat split; try done. by eapply pattern_at_no_dot.
Qed.

Lemma extract_value_sound_witness :
  exists text phrase pre ws g post,
    content (loaded "Budget is $50,000. Risk Level: High." init) = Some text
    /\ lead_in "Risk Level" = Some phrase
    /\ lower text = pre +:+ phrase +:+ ws +:+ g +:+ post
    /\ all_chars is_space ws = true
    /\ ("Risk Level" <> "Risk Level" -> ws = EmptyString)
    /\ g <> EmptyString
    /\ all_chars not_dot g = true
    /\ stops_group post
    /\ "high" = strip g.
Proof.
  apply (extract_value_sound
           (loaded "Budget is $50,000. Risk Level: High." init)
           "Risk Level" "high").
  vm_compute; reflexivity.
Defined.

(** *** When a value is found *)

Lemma capture_some c rest :
  c <> "."%char -> exists g, capture (String c rest) = Some g.
Proof.
  intros Hc. unfold capture. cbn.
  assert (not_dot c = true) as ->.
  { unfold not_dot. apply negb_true_iff. by apply Ascii.eqb_neq. }
  by eexists.
Qed.

Lemma spaces_then_capture_some c rest :
  c <> "."%char -> exists g, spaces_then_capture (String c rest) = Some g.
Proof.
  intros Hc. cbn [spaces_then_capture].
  destruct (is_space c); [|by apply capture_some].
  destruct (spaces_then_capture rest); [by eexists|by apply capture_some].
Qed.

Lemma search_some m pre : forall rest h,
  m rest = Some h -> exists g, search m (pre +:+ rest) = Some g.
Proof.
  induction pre as [|c pre IH]; intros rest h Hm.
  - change (EmptyString +:+ rest) with rest.
    destruct rest; cbn [search]; rewrite Hm; by eexists.
  - rewrite append_cons. cbn [search].
    destruct (m (String c (pre +:+ rest))); [by eexists|].
    by eapply IH.
Qed.

(** X3. When the content holds, in any case, the phrase of a category
    followed by a character other than a period, [extract_value] returns a
    value: the category is not reported as missing. *)
Theorem extract_value_found (a : Auditor)
    (category text phrase pre rest : string) (c : ascii) :
  content a = Some text ->
  lead_in category = Some phrase ->
  lower text = pre +:+ phrase +:+ String c rest ->
  c <> "."%char ->
  exists v, extract_value a category = Some v.
Proof.
  intros Htext Hlead Hlower Hc. rewrite extract_value_cases, Htext, Hlead.
  assert (is_empty text = false) as ->.
  { rewrite <- (is_empty_map lower_char). fold (lower text). rewrite Hlower.
    unfold lead_in in Hlead.
    destruct pre; [|done].
    repeat (destruct (String.eqb _ _); [by injection Hlead as <-|]). done. }
  rewrite Hlower.
  assert (Hat : exists h,
            pattern_at category phrase (phrase +:+ String c rest) = Some h).
  { unfold pattern_at, lit_capture, lit_spaces_capture.
    destruct (String.eqb category "Risk Level"); rewrite strip_prefix_here.
    - by apply spaces_then_capture_some.
    - by apply capture_some. }
  destruct Hat as [h Hh].
  destruct (search_some _ pre _ _ Hh) as [g Hg].
  rewrite Hg. by eexists.
Qed.

Lemma extract_value_found_witness :
  exists v,
    extract_value (loaded "The BUDGET is unknown" init) "Budget" = Some v.
Proof.
  refine (extract_value_found (loaded "The BUDGET is unknown" init)
            "Budget" "The BUDGET is unknown" "budget is " "the " "nknown" "u"
            _ _ _ _).
  - reflexivity.
  - reflexivity.
  - vm_compute; reflexivity.
  - discriminate.
Defined.

End ExtractProps.


(** * More properties of the audit *)

Module AuditMore.

Import PyStr Regex FactCheckAuditor AuditorSpec CoverageSpec StrFacts.
Import AuditorProps ExtractProps.

Lemma extract_value_by_lower a b cat text text' :
  content a = Some text -> content b = Some text' ->
  lower text = lower text' ->
  extract_value a cat = extract_value b cat.
Proof.
  intros Ha Hb Hl. rewrite !extract_value_cases, Ha, Hb.
  rewrite <- (is_empty_map lower_char text), <- (is_empty_map lower_char text').
  fold (lower text) (lower text'). by rewrite Hl.
Qed.

(** X4. The audit does not see the case of the content: two contents that
    are equal in lower case give the same results. *)
Theorem audit_ignores_case (st : State) (text text' : string) :
  lower text = lower text' ->
  fst (audit (with_content text st)) = fst (audit (with_content text' st)).
Proof.
  intros Hl. rewrite !audit_returns. f_equal.
  unfold audit_results. cbn [with_content self expected_values].
  apply map_ext. intros [cat exp]. unfold audit_result. cbn [fst snd].
  by rewrite (extract_value_by_lower _
                (self (with_content text' st)) cat text text').
Qed.

Lemma audit_ignores_case_witness :
  fst (audit (with_content "RISK LEVEL: MEDIUM." example_state))
  = fst (audit (with_content "Risk level: Medium." example_state)).
Proof.
  apply audit_ignores_case. vm_compute; reflexivity.
Defined.

(** X5. With no content, with an empty content, or for a category that has
    no pattern, the result has no actual value and the status DATA
    MISSING. *)
Theorem nothing_to_extract (st : State) (results : list AuditResult)
    (r : AuditResult) :
  fst (audit st) = Some results ->
  In r results ->
  content (self st) = None
  \/ content (self st) = Some EmptyString
  \/ lead_in (category r) = None ->
  actual r = None /\ status r = DATA_MISSING.
Proof.
  rewrite audit_returns. intros [= <-] Hin Hcase.
  apply in_audit_results in Hin as (cat & exp & _ & ->).
  cbn [category actual status] in *.
  assert (Hnone : extract_value (self st) cat = None).
  { rewrite extract_value_cases.
    destruct Hcase as [-> | [-> | ->]];
      [done | by destruct (lead_in cat) | by destruct (content (self st))]. }
  by rewrite Hnone.
Qed.

Lemma nothing_to_extract_witness :
  actual (audit_result (self (with_content EmptyString example_state))
            ("Lead", "Sarah Chen")) = None
  /\ status (audit_result (self (with_content EmptyString example_state))
               ("Lead", "Sarah Chen")) = DATA_MISSING.
Proof.
  apply (nothing_to_extract (with_content EmptyString example_state)
           (audit_results (self (with_content EmptyString example_state)))).
  - vm_compute; reflexivity.
  - vm_compute; tauto.
  - right. left. reflexivity.
Defined.

(** X6. [audit] always returns, with one result for each configured
    category, in the order of the configuration and with its expected
    value; it changes neither the auditor nor any file. *)
Theorem audit_one_result_per_category (st : State) :
  exists results,
    audit st = (Some results, with_output (audit_console (self st)) st)
    /\ map category results = map fst (expected_values (self st))
    /\ map expected results = map snd (expected_values (self st))
    /\ self (snd (audit st)) = self st
    /\ files (world (snd (audit st))) = files (world st).
Proof.
  exists (audit_results (self st)). rewrite audit_spec.
  split; [done|]. unfold audit_results. rewrite !map_map.
  by repeat split.
Qed.

(** X7. A result of an audit has the status CRITICAL WARNING exactly when
    its category is "Risk Level" and its actual value is "medium" or
    "high" in lower case and differs, in lower case, from the expected
    value; an actual value equal to the expected one up to case is a
    MATCH, elevated or not. *)
Theorem critical_warning_iff (st : State) (results : list AuditResult)
    (r : AuditResult) :
  fst (audit st) = Some results ->
  In r results ->
  (status r = CRITICAL_WARNING <->
   category r = "Risk Level"
   /\ exists act,
        actual r = Some act
        /\ (lower act = "medium" \/ lower act = "high")
        /\ lower act <> lower (expected r))
  /\ (forall act,
        actual r = Some act ->
        lower act = lower (expected r) ->
        status r = MATCH).
Proof.
  rewrite audit_returns. intros [= <-] Hin.
  apply in_audit_results in Hin as (cat & exp & _ & ->).
  cbn [category expected actual status].
  unfold audit_category, str_in, elevated. cbn [existsb].
  destruct (extract_value (self st) cat) as [act|].
  - split.
    + destruct (String.eqb_spec (lower act) (lower exp)) as [Heq|Hne];
        destruct (String.eqb_spec cat "Risk Level") as [Hcat|Hcat];
        destruct (String.eqb_spec (lower act) "medium") as [Hm|Hm];
        destruct (String.eqb_spec (lower act) "high") as [Hh|Hh];
        cbn; (split; [try discriminate; intros _|]);
        try (split; [done|]; exists act; intuition congruence);
        intros (H1 & a & [= <-] & H2 & H3); intuition congruence.
    + intros a [= <-] Heq. by rewrite Heq, String.eqb_refl.
  - cbn. split; [|done]. split; [discriminate|]. by intros (_ & a & [=] & _).
Qed.

Lemma critical_warning_iff_witness :
  status (audit_result (self example_state) ("Risk Level", "Low"))
  = CRITICAL_WARNING.
Proof.
  refine (proj2 (proj1 (critical_warning_iff example_state
                   (audit_results (self example_state))
                   (audit_result (self example_state) ("Risk Level", "Low"))
                   _ _)) _).
  - vm_compute; reflexivity.
  - vm_compute; tauto.
  - split; [reflexivity|]. exists "high".
    split; [vm_compute; reflexivity|].
    split; [right; reflexivity|vm_compute; discriminate].
Defined.

End AuditMore.

(** * More properties of the writers and of [run] *)

Module RunMore.

Import PyStr FactCheckAuditor AuditorSpec CoverageSpec StrFacts.
Import AuditorProps.

(** *** When the writers raise *)

Lemma in_with_status t r results :
  In r (with_status t results) <-> In r results /\ status r = t.
Proof.
  unfold with_status. rewrite List.filter_In. unfold has_status.
  split; intros [Hin Hst]; (split; [done|]).
  - by destruct (status r), t.
  - rewrite Hst. by destruct t.
Qed.

Lemma report_warning_lines_none warnings :
  report_warning_lines warnings = None <->
  exists r, In r warnings /\ actual r = None.
Proof.
  induction warnings as [|w rest IH]; cbn [report_warning_lines].
  - split; [done|]. by intros (r & [] & _).
  - unfold actual_upper. destruct (actual w) as [act|] eqn:E; cbn [option_map].
    + destruct (report_warning_lines rest) as [more|]; cbn [option_map].
      * split; [done|]. intros (r & [<-|Hin] & Hr); [congruence|].
        assert (Some more = None) by (apply IH; by exists r). done.
      * split; [|done]. intros _.
        destruct (proj1 IH eq_refl) as (r & Hin & Hr).
        exists r. split; [by right|done].
    + split; [|done]. intros _. exists w. split; [by left|done].
Qed.

Lemma log_critical_items_none warnings :
  log_critical_items warnings = None <->
  exists r, In r warnings /\ actual r = None.
Proof.
  induction warnings as [|w rest IH]; cbn [log_critical_items].
  - split; [done|]. by intros (r & [] & _).
  - unfold actual_upper. destruct (actual w) as [act|] eqn:E; cbn [option_map].
    + destruct (log_critical_items rest) as [more|]; cbn [option_map].
      * split; [done|]. intros (r & [<-|Hin] & Hr); [congruence|].
        assert (Some more = None) by (apply IH; by exists r). done.
      * split; [|done]. intros _.
        destruct (proj1 IH eq_refl) as (r & Hin & Hr).
        exists r. split; [by right|done].
    + split; [|done]. intros _. exists w. split; [by left|done].
Qed.

Lemma unprintable_warning results :
  (exists r, In r (with_status CRITICAL_WARNING results) /\ actual r = None)
  <-> exists r, In r results /\ unprintable r.
Proof.
  unfold unprintable.
  split; intros (r & H1 & H2); exists r.
  - apply in_with_status in H1. tauto.
  - rewrite in_with_status. tauto.
Qed.

Lemma report_lines_none a results :
  report_lines a results = None <-> exists r, In r results /\ unprintable r.
Proof.
  rewrite <- unprintable_warning. unfold report_lines.
  destruct (with_status CRITICAL_WARNING results) as [|c cs].
  - split; [done|]. by intros (r & [] & _).
  - rewrite <- report_warning_lines_none.
    by destruct (report_warning_lines (c :: cs)).
Qed.

Lemma log_entry_none timestamp results :
  log_entry timestamp results = None <->
  exists r, In r results /\ unprintable r.
Proof.
  rewrite <- unprintable_warning. unfold log_entry.
  destruct (with_status CRITICAL_WARNING results) as [|c cs].
  - split; [done|]. by intros (r & [] & _).
  - rewrite <- log_critical_items_none.
    by destruct (log_critical_items (c :: cs)).
Qed.

(** X8. [generate_report] and [log_to_history] raise exactly when some
    result is a critical warning without an actual value (its [upper()]
    fails); they then leave the state as it was: nothing is printed,
    nothing is written. *)
Theorem writers_raise_iff (timestamp : string) (results : list AuditResult)
    (st : State) :
  (fst (generate_report results st) = None <->
   exists r, In r results /\ unprintable r)
  /\ (fst (log_to_history timestamp results st) = None <->
      exists r, In r results /\ unprintable r)
  /\ (fst (generate_report results st) = None ->
      snd (generate_report results st) = st)
  /\ (fst (log_to_history timestamp results st) = None ->
      snd (log_to_history timestamp results st) = st).
Proof.
  rewrite <- (report_lines_none (self st)) at 1.
  rewrite <- (log_entry_none timestamp).
  unfold generate_report, log_to_history, bind, get_self, get_world.
  destruct (report_lines (self st) results) as [lines|];
    destruct (log_entry timestamp results) as [entry|];
    destruct (write_error (world st) !! report_file (self st));
    destruct (write_error (world st) !! history_log (self st));
    destruct (files (world st) !! history_log (self st));
    cbn; repeat split; done.
Qed.

Lemma writers_raise_iff_witness :
  fst (generate_report
         [ {| category := "Risk Level"; expected := "Low";
              actual := None; status := CRITICAL_WARNING |} ]
         example_state) = None.
Proof.
  refine (proj2 (proj1 (writers_raise_iff "2026-01-01 00:00:00" _ _)) _).
  eexists. split; [left; reflexivity|]. split; reflexivity.
Defined.

(** *** [run] as a whole *)

Lemma run_outcome timestamp st text :
  files (world st) !! source_file (self st) = Some text ->
  read_error (world st) !! source_file (self st) = None ->
  exists lines entry,
    report_lines (loaded text (self st)) (audit_results (loaded text (self st)))
    = Some lines
    /\ log_entry timestamp (audit_results (loaded text (self st))) = Some entry
    /\ fst (run timestamp st) = Some true
    /\ files (world (snd (run timestamp st)))
       = log_written (with_files (report_written st lines) st) entry
    /\ read_error (world (snd (run timestamp st))) = read_error (world st)
    /\ write_error (world (snd (run timestamp st))) = write_error (world st).
Proof.
  intros Hf Hr. rewrite (run_loaded _ _ text) by assumption.
  destruct (audited_report_lines text st) as [lines Hlines].
  destruct (log_entry_total timestamp _
              (audit_results_well_formed (loaded text (self st))))
    as [entry Hentry].
  exists lines, entry. split; [exact Hlines|]. split; [exact Hentry|].
  unfold log_written, report_written.
  destruct (write_error (world st) !! report_file (self st)) as [e|] eqn:Hw.
  - rewrite (generate_report_fault _ lines e) by assumption.
    destruct (write_error (world st) !! history_log (self st)) as [e'|] eqn:Hl.
    + rewrite (log_to_history_fault _ _ entry e') by assumption.
      project_state. by rewrite Hl.
    + rewrite (log_to_history_ok _ _ entry) by assumption.
      project_state. by rewrite Hl.
  - rewrite (generate_report_ok _ lines) by assumption.
    destruct (write_error (world st) !! history_log (self st)) as [e'|] eqn:Hl.
    + rewrite (log_to_history_fault _ _ entry e') by assumption.
      project_state. by rewrite Hl.
    + rewrite (log_to_history_ok _ _ entry) by assumption.
      project_state. by rewrite Hl.
Qed.

Lemma run_failed timestamp st :
  can_load st = false ->
  exists line,
    run timestamp st = (Some false, with_output (run_banner ++ [line]) st).
Proof.
  unfold can_load. intros Hc.
  destruct (files (world st) !! source_file (self st)) as [text|] eqn:Hf.
  - destruct (read_error (world st) !! source_file (self st)) as [e|] eqn:Hr;
      [|done].
    eexists. apply run_not_loaded.
    by apply (load_file_unreadable (with_output run_banner st) text e).
  - eexists. apply run_not_loaded.
    by apply (load_file_missing (with_output run_banner st)).
Qed.

(** X9. [run] never lets an exception escape, and it returns [True]
    exactly when the source file exists and can be read: a failure of
    either writer does not change the result. *)
Theorem run_result (timestamp : string) (st : State) :
  fst (run timestamp st) = Some (can_load st).
Proof.
  destruct (can_load st) eqn:Hc.
  - unfold can_load in Hc.
    destruct (files (world st) !! source_file (self st)) as [text|] eqn:Hf;
      [|done].
    destruct (read_error (world st) !! source_file (self st)) eqn:Hr; [done|].
    by destruct (run_outcome timestamp st text Hf Hr)
      as (lines & entry & _ & _ & Hres & _).
  - destruct (run_failed timestamp st Hc) as [line ->]. reflexivity.
Qed.

(** X10. [run] touches no file but the report file and the history log:
    every other path, the source file among them when it is neither, holds
    after the run what it held before; the faults are left as they
    were. *)
Theorem run_frame (timestamp : string) (st : State) :
  (forall p,
     p <> report_file (self st) -> p <> history_log (self st) ->
     files (world (snd (run timestamp st))) !! p = files (world st) !! p)
  /\ read_error (world (snd (run timestamp st))) = read_error (world st)
  /\ write_error (world (snd (run timestamp st))) = write_error (world st).
Proof.
  destruct (can_load st) eqn:Hc.
  - unfold can_load in Hc.
    destruct (files (world st) !! source_file (self st)) as [text|] eqn:Hf;
      [|done].
    destruct (read_error (world st) !! source_file (self st)) eqn:Hr; [done|].
    destruct (run_outcome timestamp st text Hf Hr)
      as (lines & entry & _ & _ & _ & -> & -> & ->).
    split; [|done]. intros p Hrep Hlog.
    unfold log_written, report_written. project_state.
    destruct (write_error (world st) !! history_log (self st));
      destruct (write_error (world st) !! report_file (self st));
      by rewrite ?lookup_insert_ne.
  - destruct (run_failed timestamp st Hc) as [line ->]. by repeat split.
Qed.

Lemma run_frame_witness :
  files (world (snd (run "2026-01-01 00:00:00"
                       {| self := init; world := example_world |})))
    !! "project_specs.txt"
  = Some example_content.
Proof.
  rewrite (proj1 (run_frame "2026-01-01 00:00:00"
                    {| self := init; world := example_world |})
             "project_specs.txt").
  - vm_compute; reflexivity.
  - vm_compute; discriminate.
  - vm_compute; discriminate.
Defined.

(** X11. When opening the history log to write the entry raises, the
    error is printed and the run is not aborted: [run] returns [True], the
    log is left as it was (one that did not exist is not created), and the
    report, when it can be written, is written. *)
Theorem log_failure_not_fatal (timestamp : string) (st : State)
    (text e : string) :
  files (world st) !! source_file (self st) = Some text ->
  read_error (world st) !! source_file (self st) = None ->
  write_error (world st) !! history_log (self st) = Some e ->
  fst (run timestamp st) = Some true
  /\ In ("Error logging to history: " +:+ e)
        (stdout (world (snd (run timestamp st))))
  /\ files (world (snd (run timestamp st))) !! history_log (self st)
     = files (world st) !! history_log (self st)
  /\ (write_error (world st) !! report_file (self st) = None ->
      exists lines,
        report_lines (loaded text (self st))
          (audit_results (loaded text (self st))) = Some lines
        /\ files (world (snd (run timestamp st)))
           = <[report_file (self st) := join_lines lines]> (files (world st))).
Proof.
  intros Hf Hr Hl. rewrite (run_loaded _ _ text) by assumption.
  destruct (audited_report_lines text st) as [lines Hlines].
  destruct (log_entry_total timestamp _
              (audit_results_well_formed (loaded text (self st))))
    as [entry Hentry].
  destruct (write_error (world st) !! report_file (self st)) as [e'|] eqn:Hw.
  - rewrite (generate_report_fault _ lines e') by assumption.
    rewrite (log_to_history_fault _ _ entry e) by assumption.
    split; [done|]. split; [|by split].
    cbn [snd]. rewrite !with_output_app.
    apply in_or_app. right. apply in_or_app. right. by left.
  - rewrite (generate_report_ok _ lines) by assumption.
    rewrite (log_to_history_fault _ _ entry e) by assumption.
    split; [done|]. split; [|split].
    + cbn [snd]. rewrite !with_output_app.
      apply in_or_app. right. apply in_or_app. right. by left.
    + project_state. apply lookup_insert_ne. intros Heq.
      rewrite Heq in Hw. congruence.
    + intros _. by exists lines.
Qed.

Lemma log_failure_not_fatal_witness :
  fst (run "2026-01-01 00:00:00"
         {| self := init; world := read_only_log_world |}) = Some true
  /\ files (world (snd (run "2026-01-01 00:00:00"
                          {| self := init; world := read_only_log_world |})))
       !! "audit_history.log" = None.
Proof.
  destruct (log_failure_not_fatal "2026-01-01 00:00:00"
              {| self := init; world := read_only_log_world |}
              example_content "[Errno 13] Permission denied: 'audit_history.log'")
    as (Hres & _ & Hlog & _).
  - vm_compute; reflexivity.
  - vm_compute; reflexivity.
  - vm_compute; reflexivity.
  - split; [exact Hres|]. etransitivity; [exact Hlog|vm_compute; reflexivity].
Defined.

(** X12. The report is a function of the content of the source file: a
    run that can write it leaves the report built from that content,
    whatever the report file held and whatever the timestamp is, and a
    second run writes the same report again. *)
Theorem report_rewritten_identically (timestamp1 timestamp2 : string)
    (w : World) (text : string) :
  files w !! source_file init = Some text ->
  read_error w !! source_file init = None ->
  write_error w !! report_file init = None ->
  exists lines,
    report_lines (loaded text init) (audit_results (loaded text init))
    = Some lines
    /\ files (snd (main timestamp1 w)) !! report_file init
       = Some (join_lines lines)
    /\ files (snd (main timestamp2 (snd (main timestamp1 w)))) !! report_file init
       = Some (join_lines lines).
Proof.
  intros Hf Hr Hw.
  assert (Hrun : forall ts w',
            files w' !! source_file init = Some text ->
            read_error w' !! source_file init = None ->
            write_error w' !! report_file init = None ->
            exists lines,
              report_lines (loaded text init) (audit_results (loaded text init))
              = Some lines
              /\ files (snd (main ts w')) !! report_file init
                 = Some (join_lines lines)
              /\ files (snd (main ts w')) !! source_file init = Some text
              /\ read_error (snd (main ts w')) = read_error w'
              /\ write_error (snd (main ts w')) = write_error w').
  { intros ts w' Hf' Hr' Hw'. rewrite main_world.
    destruct (run_outcome ts {| self := init; world := w' |} text Hf' Hr')
      as (lines & entry & Hlines & _ & _ & -> & -> & ->).
    exists lines. split; [exact Hlines|].
    unfold log_written, report_written. project_state. rewrite Hw'.
    destruct (write_error w' !! history_log init);
      rewrite ?(lookup_insert_ne _ (history_log init)) by done;
      rewrite ?lookup_insert_eq;
      rewrite ?(lookup_insert_ne _ (report_file init)) by done;
      done. }
  destruct (Hrun timestamp1 w Hf Hr Hw)
    as (lines & Hlines & Hrep1 & Hsrc1 & Hre1 & Hwe1).
  destruct (Hrun timestamp2 (snd (main timestamp1 w)))
    as (lines' & Hlines' & Hrep2 & _).
  - exact Hsrc1.
  - by rewrite Hre1.
  - by rewrite Hwe1.
  - exists lines. split; [exact Hlines|]. split; [exact Hrep1|].
    rewrite Hrep2. congruence.
Qed.

Lemma report_rewritten_identically_witness :
  files (snd (main "2026-01-02 00:00:00"
                (snd (main "2026-01-01 00:00:00" example_world))))
    !! "audit_report.txt"
  = files (snd (main "2026-01-01 00:00:00" example_world)) !! "audit_report.txt".
Proof.
  destruct (report_rewritten_identically
              "2026-01-01 00:00:00" "2026-01-02 00:00:00"
              example_world example_content)
    as (lines & _ & H1 & H2).
  - vm_compute; reflexivity.
  - vm_compute; reflexivity.
  - vm_compute; reflexivity.
  - change (report_file init) with "audit_report.txt" in H1, H2.
    by rewrite H1, H2.
Defined.

(** *** What the history entry and the report hold *)

Lemma with_status_having t results : with_status t results = having t results.
Proof.
  unfold with_status, having, has_status. apply filter_ext. intros r.
  destruct (Status_eq_dec (status r) t) as [->|Hne]; [by destruct t|].
  by destruct (status r), t.
Qed.

Lemma log_critical_items_map warnings : forall items,
  log_critical_items warnings = Some items ->
  Forall (fun c => actual c <> None) warnings
  /\ items
     = map (fun c =>
              "  - " +:+ category c +:+ ": Expected '" +:+ expected c
                +:+ "', Found '"
                +:+ match actual c with
                    | Some a => upper a
                    | None => EmptyString
                    end +:+ "'")
         warnings.
Proof.
  induction warnings as [|c rest IH]; intros items; cbn [log_critical_items].
  - intros [= <-]. by split.
  - unfold actual_upper. destruct (actual c) as [act|] eqn:E; [|done].
    cbn [option_map].
    destruct (log_critical_items rest) as [more|]; [|done].
    cbn [option_map]. intros [= <-].
    destruct (IH more eq_refl) as [Hall ->].
    split; [constructor; [congruence|done]|].
    cbn [map]. by rewrite E.
Qed.

(** X13. The history entry drops nothing and keeps each kind together.
    It begins with the rule, the line of the run and the number of
    matches.  When there are mismatches, the line "Mismatches Found: "
    with their number is followed at once by one item line for each of
    them, in the order of the results; the same holds of the missing
    values under "Data Missing: " and of the critical warnings under their
    own count line, with the actual value in upper case. *)
Theorem every_finding_logged (timestamp : string)
    (results : list AuditResult) (entry : list string) :
  log_entry timestamp results = Some entry ->
  let mismatches := having MISMATCH results in
  let missing := having DATA_MISSING results in
  let critical := having CRITICAL_WARNING results in
  (exists rest,
     entry = dashes_rule
               :: ("AUDIT RUN: " +:+ timestamp)
               :: ("Total Matches: " +:+ decimal (carrying MATCH results))
               :: rest)
  /\ (mismatches <> [] ->
      exists pre post,
        entry
        = pre
            ++ ("Mismatches Found: " +:+ decimal (List.length mismatches))
            :: map (fun m =>
                      "  - " +:+ category m +:+ ": Expected '" +:+ expected m
                        +:+ "', Found '"
                        +:+ match actual m with
                            | Some a => a
                            | None => "None"
                            end +:+ "'")
                 mismatches
            ++ post)
  /\ (missing <> [] ->
      exists pre post,
        entry
        = pre
            ++ ("Data Missing: " +:+ decimal (List.length missing))
            :: map (fun m => "  - " +:+ category m +:+ ": " +:+ expected m)
                 missing
            ++ post)
  /\ (critical <> [] ->
      Forall (fun c => actual c <> None) critical
      /\ exists pre post,
           entry
           = pre
               ++ ("⚠️  CRITICAL WARNINGS: "
                     +:+ decimal (List.length critical))
               :: map (fun c =>
                         "  - " +:+ category c +:+ ": Expected '"
                           +:+ expected c +:+ "', Found '"
                           +:+ match actual c with
                               | Some a => upper a
                               | None => EmptyString
                               end +:+ "'")
                    critical
               ++ post).
Proof.
  unfold log_entry. rewrite sum_ones_count, count_status_carrying.
  rewrite !with_status_having. cbv zeta.
  set (mismatch_block :=
         match having MISMATCH results with
         | _ :: _ => _
         | [] => _
         end).
  set (missing_block :=
         match having DATA_MISSING results with
         | [] => []
         | _ :: _ => _
         end).
  destruct (match having CRITICAL_WARNING results with
            | [] => Some []
            | _ :: _ => _
            end) as [critical_lines|] eqn:Ecrit; [|done].
  intros [= <-].
  split; [by eexists|]. split; [|split].
  - intros Hne. subst mismatch_block.
    destruct (having MISMATCH results) as [|m ms]; [done|].
    exists ([rule_dash; "AUDIT RUN: " +:+ timestamp;
             "Total Matches: " +:+ of_nat (carrying MATCH results)]
              ++ critical_lines),
           (missing_block ++ [rule_dash; EmptyString]).
    by rewrite <- !app_assoc.
  - intros Hne. subst missing_block.
    destruct (having DATA_MISSING results) as [|m ms]; [done|].
    exists ([rule_dash; "AUDIT RUN: " +:+ timestamp;
             "Total Matches: " +:+ of_nat (carrying MATCH results)]
              ++ critical_lines ++ mismatch_block),
           [rule_dash; EmptyString].
    by rewrite <- !app_assoc.
  - intros Hne.
    destruct (having CRITICAL_WARNING results) as [|c cs]; [done|].
    destruct (log_critical_items (c :: cs)) as [items|] eqn:Ei; [|done].
    cbn [option_map] in Ecrit. injection Ecrit as <-.
    destruct (log_critical_items_map _ _ Ei) as [Hall ->].
    split; [exact Hall|].
    exists [rule_dash; "AUDIT RUN: " +:+ timestamp;
            "Total Matches: " +:+ of_nat (carrying MATCH results)],
           (mismatch_block ++ missing_block ++ [rule_dash; EmptyString]).
    reflexivity.
Qed.

Lemma every_finding_logged_witness :
  exists entry pre post,
    log_entry "2026-01-01 00:00:00" (audit_results (self example_state))
    = Some entry
    /\ entry
       = pre
           ++ [ "Mismatches Found: 1";
                "  - Deadline: Expected 'January 15th', Found 'march 3rd'" ]
           ++ post.
Proof.
  destruct (log_entry "2026-01-01 00:00:00" (audit_results (self example_state)))
    as [entry|] eqn:E; [|vm_compute in E; discriminate].
  destruct (proj1 (proj2 (every_finding_logged "2026-01-01 00:00:00"
              (audit_results (self example_state)) entry E)))
    as (pre & post & Hentry).
  - vm_compute; discriminate.
  - exists entry, pre, post. split; [reflexivity|exact Hentry].
Defined.

Lemma report_warning_lines_map warnings : forall ls,
  report_warning_lines warnings = Some ls ->
  Forall (fun c => actual c <> None) warnings
  /\ ls
     = flat_map (fun c =>
                   [ "⚠️  " +:+ category c +:+ ": "
                       +:+ match actual c with
                           | Some a => upper a
                           | None => EmptyString
                           end;
                     "    Expected: " +:+ expected c ])
         warnings.
Proof.
  induction warnings as [|c rest IH]; intros ls; cbn [report_warning_lines].
  - intros [= <-]. by split.
  - unfold actual_upper. destruct (actual c) as [act|] eqn:E; [|done].
    cbn [option_map].
    destruct (report_warning_lines rest) as [more|]; [|done].
    cbn [option_map]. intros [= <-].
    destruct (IH more eq_refl) as [Hall ->].
    split; [constructor; [congruence|done]|].
    cbn [flat_map app]. by rewrite E.
Qed.

Lemma report_result_lines_no_banner results :
  ~ In warnings_banner (flat_map report_result_lines results).
Proof.
  rewrite in_flat_map. intros (r & _ & H).
  unfold report_result_lines in H. destruct (actual r); in_leaves H; discriminate.
Qed.

Lemma report_rest_no_banner results :
  ~ In warnings_banner
      (["VALIDATION RESULTS:"; rule_dash]
         ++ flat_map report_result_lines results
         ++ report_summary (sum_ones MATCH results) (sum_ones MISMATCH results)
              (sum_ones CRITICAL_WARNING results)
              (sum_ones DATA_MISSING results)).
Proof.
  pose proof (report_result_lines_no_banner results) as Hres.
  intros H. in_leaves H; try discriminate H; try tauto.
  unfold report_summary in H. in_leaves H; discriminate H.
Qed.

(** X14. A report without a critical warning has no line
    "!!! CRITICAL WARNINGS DETECTED !!!".  A report with critical warnings
    has that line once, followed at once by the rule, then, for each
    critical warning in the order of the results, the line of its category
    with its actual value in upper case and the line of its expected
    value, then the rule and an empty line. *)
Theorem warnings_block_iff (a : Auditor) (results : list AuditResult)
    (lines : list string) :
  report_lines a results = Some lines ->
  let critical := having CRITICAL_WARNING results in
  (critical = [] -> ~ In warnings_banner lines)
  /\ (critical <> [] ->
      Forall (fun c => actual c <> None) critical
      /\ exists pre post,
           lines
           = pre
               ++ [warnings_banner; equals_rule]
               ++ flat_map (fun c =>
                              [ "⚠️  " +:+ category c +:+ ": "
                                  +:+ match actual c with
                                      | Some a => upper a
                                      | None => EmptyString
                                      end;
                                "    Expected: " +:+ expected c ])
                    critical
               ++ [equals_rule; EmptyString]
               ++ post
           /\ ~ In warnings_banner pre
           /\ ~ In warnings_banner post).
Proof.
  unfold report_lines. rewrite with_status_having. cbv zeta.
  pose proof (report_rest_no_banner results) as Hrest.
  destruct (having CRITICAL_WARNING results) as [|c cs] eqn:Ec.
  - intros [= <-]. split; [|done]. intros _ H.
    do 7 (destruct H as [H|H]; [discriminate H|]).
    by apply Hrest.
  - destruct (report_warning_lines (c :: cs)) as [ls|] eqn:El; [|done].
    cbn [option_map]. intros [= <-]. split; [done|]. intros _.
    destruct (report_warning_lines_map _ _ El) as [Hall ->].
    split; [exact Hall|].
    exists [ rule_eq; "FACT-CHECK AUDIT REPORT"; rule_eq;
             "Source File: " +:+ source_file a;
             "Report Generated: " +:+ script_name;
             rule_eq; EmptyString ],
           (["VALIDATION RESULTS:"; rule_dash]
              ++ flat_map report_result_lines results
              ++ report_summary (sum_ones MATCH results)
                   (sum_ones MISMATCH results)
                   (sum_ones CRITICAL_WARNING results)
                   (sum_ones DATA_MISSING results)).
    split; [by rewrite <- !app_assoc|]. split; [|exact Hrest].
    intros H. in_leaves H; discriminate H.
Qed.

Lemma warnings_block_iff_witness :
  exists lines pre post,
    report_lines init (audit_results (self example_state)) = Some lines
    /\ lines
       = pre
           ++ [ warnings_banner; equals_rule;
                "⚠️  Risk Level: HIGH"; "    Expected: Low";
                equals_rule; EmptyString ]
           ++ post.
Proof.
  destruct (report_lines init (audit_results (self example_state)))
    as [lines|] eqn:E; [|vm_compute in E; discriminate].
  destruct (proj2 (warnings_block_iff init
              (audit_results (self example_state)) lines E))
    as (_ & pre & post & Hlines & _).
  - vm_compute; discriminate.
  - exists lines, pre, post. split; [reflexivity|exact Hlines].
Defined.

(** *** The text of a history entry *)

(** X15. The text of a history entry begins with the dashed rule and the
    line "AUDIT RUN: " with the timestamp, and ends with the dashed rule
    and a newline: entries appended one after the other each begin on a
    line of their own. *)
Theorem log_entry_framed (timestamp : string) (results : list AuditResult)
    (entry : list string) :
  log_entry timestamp results = Some entry ->
  exists middle,
    join_lines entry
    = (rule_dash +:+ newline +:+ "AUDIT RUN: " +:+ timestamp +:+ newline)
        +:+ middle +:+ (newline +:+ rule_dash +:+ newline).
Proof.
  intros H.
  assert (Hshape : exists body,
            entry = [rule_dash; "AUDIT RUN: " +:+ timestamp]
                      ++ (("Total Matches: " +:+ of_nat (sum_ones MATCH results))
                            :: body)
                      ++ [rule_dash; EmptyString]).
  { unfold log_entry in H.
    destruct (match with_status CRITICAL_WARNING results with
              | [] => Some []
              | _ :: _ => _
              end) as [critical_lines|]; [|done].
    injection H as <-. eexists. cbn [app]. do 3 f_equal.
    rewrite !app_assoc. reflexivity. }
  destruct Hshape as [body ->].
  exists (join_lines
            (("Total Matches: " +:+ of_nat (sum_ones MATCH results)) :: body)).
  rewrite join_lines_app by done. rewrite join_lines_app by done.
  change (join_lines [rule_dash; "AUDIT RUN: " +:+ timestamp])
    with (rule_dash +:+ newline +:+ "AUDIT RUN: " +:+ timestamp).
  change (join_lines [rule_dash; EmptyString])
    with (rule_dash +:+ newline +:+ EmptyString).
  rewrite append_nil_r. by rewrite !append_assoc.
Qed.

Lemma log_entry_framed_witness :
  exists middle,
    join_lines quiet_entry
    = (rule_dash +:+ newline +:+ "AUDIT RUN: " +:+ "2026-01-01 00:00:00"
         +:+ newline)
        +:+ middle +:+ (newline +:+ rule_dash +:+ newline).
Proof.
  apply (log_entry_framed "2026-01-01 00:00:00" quiet_results quiet_entry).
  vm_compute; reflexivity.
Defined.

End RunMore.


(** * More properties of the directory scanner *)

Module ScannerMore.

Import PyStr FileScanner ScannerSpec CoverageSpec StrFacts ScannerProps.

(** *** Rounding *)

(** Rounding to the nearest, a tie to the even quotient. *)
Lemma round_half_even_nearest (n d : N) :
  (0 < d)%N ->
  (2 * (round_half_even n d * d) <= 2 * n + d)%N
  /\ (2 * n <= 2 * (round_half_even n d * d) + d)%N
  /\ ((2 * (n mod d) = d)%N -> N.even (round_half_even n d) = true).
Proof.
  intros Hd. unfold round_half_even.
  pose proof (N.div_mod n d ltac:(lia)) as Hdiv.
  pose proof (N.mod_lt n d ltac:(lia)) as Hmod.
  set (q := (n / d)%N) in *. set (r := (n mod d)%N) in *.
  destruct (N.compare_spec (2 * r) d) as [Heq|Hlt|Hgt].
  - destruct (N.even q) eqn:Hev.
    + repeat split; [nia|nia|done].
    + repeat split; [nia|nia|]. intros _.
      rewrite N.add_1_r, N.even_succ, <- N.negb_even. by rewrite Hev.
  - repeat split; [nia|nia|lia].
  - repeat split; [nia|nia|lia].
Qed.

Lemma round_half_even_bounds m d lo hi :
  (0 < d)%N -> (d * lo <= m)%N -> (m < d * hi)%N ->
  (lo <= round_half_even m d <= hi)%N.
Proof.
  intros Hd Hlo Hhi. unfold round_half_even.
  assert (lo <= m / d)%N by (apply N.div_le_lower_bound; lia).
  assert (m / d < hi)%N by (apply N.Div0.div_lt_upper_bound; lia).
  destruct (2 * (m mod d) ?= d)%N; [destruct (N.even (m / d))|..]; lia.
Qed.

(** *** Sizes *)

(** X17. A size below 1024 is printed as itself, in bytes, with two zero
    decimals. *)
Theorem format_size_bytes (n : N) :
  (n < 1024)%N -> format_size n = of_N n +:+ ".00 B".
Proof.
  intros Hn. unfold format_size. cbn [format_units].
  rewrite N.mul_1_r. apply N.ltb_lt in Hn. rewrite Hn.
  unfold fixed2, round_half_even.
  rewrite N.div_1_r, N.mod_1_r. change (2 * 0 ?= 1)%N with Lt. cbv iota.
  rewrite (N.mul_comm 100 n), N.div_mul by done.
  rewrite N.Div0.mod_mul.
  by rewrite append_assoc.
Qed.

Lemma format_size_bytes_witness : format_size 1023 = "1023.00 B".
Proof.
  rewrite (format_size_bytes 1023); [vm_compute; reflexivity|].
  reflexivity.
Defined.

Lemma format_units_range units : forall n d,
  (0 < d)%N -> (d <= n)%N ->
  exists h unit,
    format_units units n d = hundredths_text h +:+ " " +:+ unit
    /\ In unit (units ++ ["PB"])
    /\ (100 <= h)%N
    /\ (unit <> "PB" -> (h <= 102400)%N).
Proof.
  induction units as [|u rest IH]; intros n d Hd Hn; cbn [format_units].
  - exists (round_half_even (100 * n) d), "PB".
    split; [unfold fixed2, hundredths_text; cbv zeta; by rewrite !append_assoc|].
    split; [by left|]. split; [|done].
    apply (round_half_even_bounds (100 * n) d 100 (100 * n + 1)); nia.
  - destruct (n <? 1024 * d)%N eqn:E.
    + apply N.ltb_lt in E.
      exists (round_half_even (100 * n) d), u.
      split; [unfold fixed2, hundredths_text; cbv zeta; by rewrite !append_assoc|].
      split; [by left|].
      pose proof (round_half_even_bounds (100 * n) d 100 102400 Hd).
      split; [|intros _]; lia.
    + apply N.ltb_ge in E.
      destruct (IH n (d * 1024)%N) as (h & unit & Heq & Hin & Hh);
        [lia|lia|].
      exists h, unit. split; [done|]. split; [by right|done].
Qed.

Lemma format_units_nearest units : forall n d,
  (0 < d)%N ->
  exists k unit,
    nth_error (units ++ ["PB"]) k = Some unit
    /\ format_units units n d
       = hundredths_text
           (round_half_even (100 * n) (d * 1024 ^ N.of_nat k))
           +:+ " " +:+ unit
    /\ ((k < List.length units)%nat -> (n < 1024 * (d * 1024 ^ N.of_nat k))%N).
Proof.
  induction units as [|u rest IH]; intros n d Hd; cbn [format_units].
  - exists 0%nat, "PB". rewrite N.mul_1_r.
    split; [done|]. split; [|cbn; lia].
    unfold fixed2, hundredths_text. cbv zeta. by rewrite !append_assoc.
  - destruct (n <? 1024 * d)%N eqn:E.
    + apply N.ltb_lt in E. exists 0%nat, u. rewrite N.mul_1_r.
      split; [done|]. split; [|done].
      unfold fixed2, hundredths_text. cbv zeta. by rewrite !append_assoc.
    + destruct (IH n (d * 1024)%N ltac:(lia)) as (k & unit & Hnth & Heq & Hlt).
      exists (S k), unit.
      replace (d * 1024 ^ N.of_nat (S k))%N
        with (d * 1024 * 1024 ^ N.of_nat k)%N
        by (rewrite Nat2N.inj_succ, N.pow_succ_r'; lia).
      split; [done|]. split; [done|].
      cbn [List.length]. intros Hk. apply Hlt. lia.
Qed.

(** X16. For a size below 2^53 bytes, the number [format_size] prints is
    the size divided by the power of 1024 of the unit shown, to the
    nearest hundredth: off by at most half a hundredth, a tie going to the
    even hundredth; and the size is below 1024 of that unit. *)
Theorem format_size_nearest (n : N) :
  (n < 2 ^ 53)%N ->
  exists k h unit,
    nth_error ["B"; "KB"; "MB"; "GB"; "TB"; "PB"] k = Some unit
    /\ format_size n = hundredths_text h +:+ " " +:+ unit
    /\ (2 * (h * 1024 ^ N.of_nat k) <= 2 * (100 * n) + 1024 ^ N.of_nat k)%N
    /\ (2 * (100 * n) <= 2 * (h * 1024 ^ N.of_nat k) + 1024 ^ N.of_nat k)%N
    /\ ((2 * ((100 * n) mod 1024 ^ N.of_nat k) = 1024 ^ N.of_nat k)%N ->
        N.even h = true)
    /\ (n < 1024 * 1024 ^ N.of_nat k)%N.
Proof.
  intros Hn. unfold format_size.
  destruct (format_units_nearest ["B"; "KB"; "MB"; "GB"; "TB"] n 1)
    as (k & unit & Hnth & Heq & Hlt); [lia|].
  rewrite N.mul_1_l in Heq, Hlt.
  exists k, (round_half_even (100 * n) (1024 ^ N.of_nat k)), unit.
  split; [exact Hnth|]. split; [exact Heq|].
  assert (Hpos : (0 < 1024 ^ N.of_nat k)%N).
  { apply N.neq_0_lt_0, N.pow_nonzero. lia. }
  destruct (round_half_even_nearest (100 * n) _ Hpos) as (H1 & H2 & H3).
  split; [exact H1|]. split; [exact H2|]. split; [exact H3|].
  destruct (Nat.lt_ge_cases k 5) as [Hk|Hk]; [by apply Hlt|].
  assert (k = 5%nat) as ->.
  { assert (Hb : (k < 6)%nat).
    { apply (proj1 (List.nth_error_Some
                      ["B"; "KB"; "MB"; "GB"; "TB"; "PB"] k)).
      intros Hnone. cbn [app] in Hnth. congruence. }
    lia. }
  change (1024 * 1024 ^ N.of_nat 5)%N with (2 ^ 60)%N.
  assert (2 ^ 53 < 2 ^ 60)%N by (apply N.pow_lt_mono_r; lia). lia.
Qed.

Lemma format_size_nearest_witness :
  exists k h unit,
    nth_error ["B"; "KB"; "MB"; "GB"; "TB"; "PB"] k = Some unit
    /\ format_size 1152 = hundredths_text h +:+ " " +:+ unit
    /\ (2 * (h * 1024 ^ N.of_nat k) <= 2 * (100 * 1152) + 1024 ^ N.of_nat k)%N
    /\ (2 * (100 * 1152) <= 2 * (h * 1024 ^ N.of_nat k) + 1024 ^ N.of_nat k)%N
    /\ ((2 * ((100 * 1152) mod 1024 ^ N.of_nat k) = 1024 ^ N.of_nat k)%N ->
        N.even h = true)
    /\ (1152 < 1024 * 1024 ^ N.of_nat k)%N.
Proof.
  apply (format_size_nearest 1152). vm_compute; reflexivity.
Defined.

(** X18. A size of 1024 bytes or more is printed in one of the units KB,
    MB, GB, TB or PB, and the number shown is at least 1.00; in every unit
    but PB it is at most 1024.00. *)
Theorem format_size_range (n : N) :
  (1024 <= n)%N ->
  exists h unit,
    format_size n = hundredths_text h +:+ " " +:+ unit
    /\ In unit ["KB"; "MB"; "GB"; "TB"; "PB"]
    /\ (100 <= h)%N
    /\ (unit <> "PB" -> (h <= 102400)%N).
Proof.
  intros Hn. unfold format_size. cbn [format_units].
  assert (E : (n <? 1024 * 1)%N = false) by (apply N.ltb_ge; lia).
  rewrite E.
  apply (format_units_range ["KB"; "MB"; "GB"; "TB"] n (1 * 1024)%N); lia.
Qed.

Lemma format_size_range_witness :
  exists h unit,
    format_size 1048575 = hundredths_text h +:+ " " +:+ unit
    /\ In unit ["KB"; "MB"; "GB"; "TB"; "PB"]
    /\ (100 <= h)%N
    /\ (unit <> "PB" -> (h <= 102400)%N).
Proof.
  apply (format_size_range 1048575). vm_compute; discriminate.
Defined.

(** *** The order of the rows *)

Lemma key_le_le f g : key_le f g <-> String.le (sort_key f) (sort_key g).
Proof.
  unfold key_le, String.le, String.ltb, String.leb.
  rewrite (String.compare_antisym (sort_key f) (sort_key g)).
  destruct (String.compare (sort_key g) (sort_key f)); cbn; split; done.
Qed.

Lemma key_le_trans f g h : key_le f g -> key_le g h -> key_le f h.
Proof. rewrite !key_le_le. intros Hfg Hgh. by etrans. Qed.

Lemma key_le_antisym f g : key_le f g -> key_le g f -> sort_key f = sort_key g.
Proof. rewrite !key_le_le. apply (anti_symm String.le). Qed.

Lemma sorted_strongly l : Sorted key_le l -> StronglySorted key_le l.
Proof.
  induction 1 as [|f l Hs IH Hhd]; constructor; [done|].
  clear Hs. induction IH as [|g l Hl _ Hall]; [constructor|].
  inversion Hhd as [|? ? Hfg]; subst. constructor; [done|].
  apply List.Forall_forall. intros h Hin.
  apply key_le_trans with g; [done|].
  by apply (proj1 (List.Forall_forall _ _) Hall).
Qed.

Lemma readable_total_perm l l' :
  Permutation l l' -> readable_total l = readable_total l'.
Proof.
  induction 1 as [|f l l' _ IH|f g l|l l' l'' _ IH1 _ IH2];
    cbn [readable_total].
  - done.
  - by rewrite IH.
  - destruct (st_size f), (st_size g); lia.
  - congruence.
Qed.

(** X19. When the directory holds regular files, the table has one row
    for each of them and for nothing else, in the order of their names in
    lower case; the total is the sum of the sizes that could be read and
    the count is the number of regular files, whatever the order in which
    the directory lists them. *)
Theorem scan_lists_regular_files (path absolute : string)
    (entries : list Entry) :
  List.filter is_file entries <> [] ->
  exists files,
    scan_directory path (Dir absolute entries)
    = (scan_head absolute ++ map file_row files
         ++ scan_foot
              (format_size (readable_total (List.filter is_file entries)))
              (List.length (List.filter is_file entries)),
       None)
    /\ Permutation files (List.filter is_file entries)
    /\ Sorted key_le files.
Proof.
  intros Hne. exists (sort_files (List.filter is_file entries)).
  rewrite scan_directory_spec by done. cbv zeta.
  pose proof (sort_files_perm (List.filter is_file entries)) as Hperm.
  rewrite (readable_total_perm _ _ Hperm).
  rewrite (Permutation_length Hperm).
  split; [done|]. split; [done|]. apply sort_files_sorted.
Qed.

Lemma scan_lists_regular_files_witness :
  exists files,
    scan_directory "." (Dir "/data" with_unreadable)
    = (scan_head "/data" ++ map file_row files ++ scan_foot "2.49 KB" 3, None)
    /\ Permutation files with_unreadable.
Proof.
  destruct (scan_lists_regular_files "." "/data" with_unreadable)
    as (files & Hscan & Hperm & _).
  - vm_compute; discriminate.
  - exists files. split; [exact Hscan|exact Hperm].
Defined.

(** *** Files with the same key *)

Lemma with_key_none k l :
  Forall (fun f => sort_key f <> k) l -> with_key k l = [].
Proof.
  unfold with_key. induction 1 as [|f l Hf _ IH]; [done|].
  cbn [List.filter]. by destruct (String.eqb_spec (sort_key f) k).
Qed.

Lemma with_key_app k l1 l2 :
  with_key k (l1 ++ l2) = with_key k l1 ++ with_key k l2.
Proof. apply List.filter_app. Qed.

Lemma ltb_irrefl s : String.ltb s s = false.
Proof.
  unfold String.ltb. pose proof (String.compare_antisym s s) as H.
  by destruct (String.compare s s).
Qed.

Lemma insert_sorted_with_key k f sorted :
  StronglySorted key_le sorted ->
  with_key k (insert_sorted f sorted)
  = with_key k sorted ++ with_key k [f].
Proof.
  induction 1 as [|g rest Hs IH Hall]; [done|].
  cbn [insert_sorted].
  destruct (String.ltb (sort_key f) (sort_key g)) eqn:E.
  - change (f :: g :: rest) with ([f] ++ g :: rest). rewrite with_key_app.
    destruct (String.eqb_spec (sort_key f) k) as [Hk|Hk].
    + rewrite (with_key_none k (g :: rest)); [by rewrite app_nil_r|].
      constructor.
      * intros Hg. rewrite <- Hk in Hg. rewrite Hg, ltb_irrefl in E. done.
      * apply List.Forall_forall. intros h Hin Hh.
        pose proof (proj1 (List.Forall_forall _ _) Hall h Hin) as Hgh.
        unfold key_le in Hgh. rewrite Hh, <- Hk in Hgh. congruence.
    + assert (with_key k [f] = []) as ->.
      { unfold with_key. cbn [List.filter].
        by destruct (String.eqb_spec (sort_key f) k). }
      by rewrite app_nil_r.
  - change (g :: insert_sorted f rest) with ([g] ++ insert_sorted f rest).
    change (g :: rest) with ([g] ++ rest).
    rewrite !with_key_app, IH. by rewrite app_assoc.
Qed.

(** X20. The sort is stable: the files that have the same key, that is the
    same name up to case, keep in the table the order in which the
    directory listed them. *)
Theorem sort_files_stable (files : list Entry) (k : string) :
  with_key k (sort_files files) = with_key k files.
Proof.
  unfold sort_files.
  assert (H : forall acc,
            Sorted key_le acc ->
            with_key k (fold_left (fun sorted f => insert_sorted f sorted)
                          files acc)
            = with_key k acc ++ with_key k files).
  { induction files as [|f rest IH]; intros acc Hacc; cbn [fold_left].
    - by rewrite app_nil_r.
    - rewrite IH by by apply insert_sorted_sorted.
      rewrite insert_sorted_with_key by by apply sorted_strongly.
      rewrite <- app_assoc. f_equal.
      change (f :: rest) with ([f] ++ rest). by rewrite with_key_app. }
  apply (H []). constructor.
Qed.

(** *** The order of the listing *)

Lemma sorted_perm_unique l1 : forall l2,
  Sorted key_le l1 -> Sorted key_le l2 ->
  Permutation l1 l2 ->
  List.NoDup (map sort_key l1) ->
  l1 = l2.
Proof.
  induction l1 as [|f t1 IH]; intros l2 Hs1 Hs2 Hperm Hnd.
  - by apply Permutation_nil in Hperm.
  - destruct l2 as [|g t2].
    { symmetry in Hperm. by apply Permutation_nil in Hperm. }
    assert (Hfg : f = g).
    { assert (Hg : In g (f :: t1)).
      { eapply Permutation_in; [symmetry; exact Hperm|by left]. }
      assert (Hf : In f (g :: t2)).
      { eapply Permutation_in; [exact Hperm|by left]. }
      destruct Hg as [Hg|Hg]; [done|].
      destruct Hf as [Hf|Hf]; [done|].
      apply sorted_strongly in Hs1, Hs2.
      inversion Hs1 as [|? ? _ Hall1]; subst.
      inversion Hs2 as [|? ? _ Hall2]; subst.
      pose proof (proj1 (List.Forall_forall _ _) Hall1 g Hg) as Hle1.
      pose proof (proj1 (List.Forall_forall _ _) Hall2 f Hf) as Hle2.
      pose proof (key_le_antisym _ _ Hle1 Hle2) as Hkey.
      cbn [map] in Hnd. apply List.NoDup_cons_iff in Hnd as [Hnot _].
      exfalso. apply Hnot. rewrite Hkey. by apply List.in_map. }
    subst g. f_equal. apply IH.
    + by inversion Hs1.
    + by inversion Hs2.
    + by apply Permutation_cons_inv in Hperm.
    + cbn [map] in Hnd. by apply List.NoDup_cons_iff in Hnd as [_ Hnd].
Qed.

(** X21. When no two regular files have the same name up to case, the
    output does not depend on the order in which the directory lists its
    entries, nor on the entries that are not regular files. *)
Theorem scan_order_independent (path absolute : string)
    (entries entries' : list Entry) :
  Permutation (List.filter is_file entries) (List.filter is_file entries') ->
  List.NoDup (map sort_key (List.filter is_file entries)) ->
  scan_directory path (Dir absolute entries)
  = scan_directory path (Dir absolute entries').
Proof.
  intros Hperm Hnd.
  destruct (List.filter is_file entries) as [|f fs] eqn:E.
  - apply Permutation_nil in Hperm.
    unfold scan_directory. by rewrite E, Hperm.
  - assert (Hne' : List.filter is_file entries' <> []).
    { intros H'. rewrite H' in Hperm. symmetry in Hperm.
      by apply Permutation_nil in Hperm. }
    rewrite !scan_directory_spec by (done || by rewrite E). cbv zeta.
    rewrite E.
    assert (Hsort : sort_files (f :: fs)
                    = sort_files (List.filter is_file entries')).
    { apply sorted_perm_unique.
      - apply sort_files_sorted.
      - apply sort_files_sorted.
      - rewrite !sort_files_perm. exact Hperm.
      - eapply Permutation.Permutation_NoDup; [|exact Hnd].
        apply Permutation_map. symmetry. apply sort_files_perm. }
    by rewrite Hsort.
Qed.

Lemma scan_order_independent_witness :
  scan_directory "." (Dir "/data" with_unreadable)
  = scan_directory "." (Dir "/data" (rev with_unreadable)).
Proof.
  apply scan_order_independent.
  - vm_compute. apply Permutation_rev.
  - vm_compute. repeat constructor; cbn; intuition discriminate.
Defined.

(** *** A file whose size cannot be read in the loop *)

Lemma repeat_char_spaces n :
  all_chars (Ascii.eqb " ") (repeat_char " " n) = true
  /\ String.length (repeat_char " " n) = n.
Proof.
  induction n as [|n [IH1 IH2]]; [done|].
  cbn. by rewrite IH1, IH2.
Qed.

Lemma error_row left :
  row left "Error"
  = left +:+ repeat_char " " (40 - String.length left) +:+ "           Error".
Proof. unfold row, ljust. by rewrite append_assoc. Qed.

(** X22. A file that [is_file()] accepted and whose [stat()] then fails in
    the loop does not stop the scan: in place of a size its line shows
    "Error", after its name padded to 40 columns; the files before it and
    after it have their lines; the total is the total of the other files
    and the count of files includes it. *)
Theorem unreadable_file_row (path absolute : string)
    (entries : list Entry) (f : Entry) :
  In f entries ->
  is_file f = true ->
  st_size f = None ->
  exists before after pad,
    sort_files (List.filter is_file entries) = before ++ f :: after
    /\ all_chars (Ascii.eqb " ") pad = true
    /\ String.length pad = (40 - String.length (name f))%nat
    /\ scan_directory path (Dir absolute entries)
       = (scan_head absolute
            ++ (map file_row before
                  ++ (name f +:+ pad +:+ "           Error")
                  :: map file_row after)
            ++ [ row_rule;
                 row "Total:" (format_size (readable_total (before ++ after)));
                 nl +:+ "Total files: "
                   +:+ NilZero.string_of_uint
                         (Nat.to_uint (S (List.length (before ++ after))));
                 rule60 +:+ nl ],
          None).
Proof.
  intros Hin Hfile Hstat.
  assert (Hf : In f (List.filter is_file entries)).
  { apply List.filter_In. by split. }
  assert (Hs : In f (sort_files (List.filter is_file entries))).
  { eapply Permutation_in; [|exact Hf]. symmetry. apply sort_files_perm. }
  apply in_split in Hs as (before & after & Hsplit).
  exists before, after, (repeat_char " " (40 - String.length (name f))).
  split; [exact Hsplit|].
  destruct (repeat_char_spaces (40 - String.length (name f))) as [Hsp Hlen].
  split; [exact Hsp|]. split; [exact Hlen|].
  rewrite scan_directory_spec by (by destruct (List.filter is_file entries)).
  cbv zeta. rewrite Hsplit.
  rewrite map_app. cbn [map]. unfold file_row at 2. rewrite Hstat.
  rewrite error_row.
  rewrite !readable_total_app. cbn [readable_total]. rewrite Hstat.
  rewrite !length_app. cbn [List.length]. rewrite Nat.add_succ_r.
  reflexivity.
Qed.

Lemma unreadable_file_row_witness :
  scan_directory "." (Dir "/data" with_gone_meanwhile)
  = (scan_head "/data"
       ++ [ row "a.txt" "500.00 B";
            "b.tmp                                              Error";
            row "c.txt" "2.00 KB" ]
       ++ scan_foot "2.49 KB" 3,
     None)
  /\ exists before after,
       sort_files (List.filter is_file with_gone_meanwhile)
       = before ++ gone_meanwhile :: after.
Proof.
  split; [vm_compute; reflexivity|].
  destruct (unreadable_file_row "." "/data" with_gone_meanwhile gone_meanwhile)
    as (before & after & pad & Hsplit & _).
  - vm_compute; tauto.
  - reflexivity.
  - reflexivity.
  - exists before, after. exact Hsplit.
Defined.

End ScannerMore.
